(** * Alpha Tribe stock-discussion backend: a shallow embedding of the
      Express route handlers and of the authentication middleware.

    The handlers live in [routes/auth.js], [routes/users.js],
    [routes/posts.js], [routes/comments.js] and [middleware/authMiddle.js].
    The repository carries two revisions of several of them; each revision
    is embedded under its own name and the file it comes from is given in
    the comment above the definition.

    Collections are lists of documents in insertion order; the id of a
    document is the hex string of its ObjectId.  Everything the handlers
    delegate to a library (ObjectId casting, JWT verification, bcrypt, the
    engine's sort and its skip/limit window) is a field of the class
    [Engine]. *)

From Stdlib Require Import List String Ascii ZArith Lia Bool Permutation.
Import ListNotations.

Set Warnings "-register-all".
Local Open Scope string_scope.
Local Open Scope list_scope.

(** ** JSON values and HTTP responses *)

Inductive json : Type :=
| JNull
| JBool (b : bool)
| JNum (n : Z)
| JStr (s : string)
| JArr (items : list json)
| JObj (fields : list (string * json)).

Record Response : Type := mkResponse { status : Z; body : json }.

(** [has_key k j]: some object nested anywhere in [j] has a field named [k]. *)
Fixpoint has_key (k : string) (j : json) : bool :=
  match j with
  | JArr items => existsb (has_key k) items
  | JObj fields =>
      existsb (fun kv => let '(k', v) := kv in String.eqb k k' || has_key k v) fields
  | _ => false
  end.

(** [has_string s j]: the string [s] occurs as a string value anywhere in [j]. *)
Fixpoint has_string (s : string) (j : json) : bool :=
  match j with
  | JStr s' => String.eqb s s'
  | JArr items => existsb (has_string s) items
  | JObj fields => existsb (fun kv => let '(_, v) := kv in has_string s v) fields
  | _ => false
  end.

(** ** JavaScript numbers, as far as the handlers use them *)

Inductive jsnum : Type :=
| Num (z : Z)
| Infinite
| NaN.

(** [JSON.stringify] writes [NaN] and the infinities as [null]. *)
Definition jsnum_json (n : jsnum) : json :=
  match n with
  | Num z => JNum z
  | _ => JNull
  end.

Definition MAX_SAFE_INTEGER : Z := 2 ^ 53 - 1.

(** ** Documents, as the Mongoose schemas declare them *)

(* models/user.model.js *)
Record User : Type := mkUser {
  user_id : string;
  username : string;
  email : string;
  password : string;
  bio : string;
  profilePicture : string;
  user_createdAt : Z
}.

(* models/post.model.js *)
Record Post : Type := mkPost {
  post_id : string;
  post_user : string;
  stockSymbol : string;
  title : string;
  description : string;
  tags : list string;
  comments : list string;
  likes : list string;
  post_createdAt : Z;
  (* the version key [__v] *)
  post_v : Z
}.

(* models/comment.model.js *)
Record Comment : Type := mkComment {
  comment_id : string;
  comment_user : string;
  comment_post : string;
  content : string;
  comment_createdAt : Z
}.

Record Store : Type := mkStore {
  users : list User;
  posts : list Post;
  commentDocs : list Comment
}.

Definition empty_store : Store := mkStore [] [] [].

(** ** Errors thrown inside a handler *)

Inductive error : Type :=
| CastError (value path : string)
| ValidationError (paths : list string)
| DuplicateKey (path : string)
| BcryptError
| EngineError
| TypeError
| PlainError (msg : string).

Inductive SortKey : Type := SortNone | SortDate | SortLikes.

(** ** What the libraries do *)

Class Engine : Type := {
  (* Mongoose can cast this string to an ObjectId *)
  castObjectId : string -> bool;
  (* the hex string of the ObjectId that a castable string is cast to:
     [new ObjectId(s).toString()] *)
  canonical : string -> string;
  canonical_idem : forall s, canonical (canonical s) = canonical s;
  (* jwt.verify with the server's secret: the [id] of the payload, when the
     token is well signed and not expired; it throws on a token that is
     undefined or empty ("jwt must be provided") *)
  jwt_verify : option string -> option string;
  jwt_verify_absent : jwt_verify None = None;
  jwt_verify_empty : jwt_verify (Some EmptyString) = None;
  jwt_sign : string -> string;
  bcrypt_hash : string -> string -> string;
  bcrypt_compare : string -> string -> bool;
  error_message : error -> string;
  (* .sort(...) of the engine *)
  engine_sort : SortKey -> list Post -> list Post;
  (* .limit(l).skip(s) of the engine; None when the engine refuses them *)
  engine_window : jsnum -> jsnum -> list Post -> option (list Post);
  engine_sort_perm : forall k l, Permutation (engine_sort k l) l;
  engine_window_regular : forall l s xs,
    (1 <= l)%Z -> (0 <= s)%Z ->
    engine_window (Num l) (Num s) xs =
      Some (firstn (Z.to_nat l) (skipn (Z.to_nat s) xs))
}.

(** ** String helpers *)

(** [String.prototype.split] with a one-character separator. *)
Fixpoint split_on (sep : ascii) (s : string) : list string :=
  match s with
  | EmptyString => [EmptyString]
  | String c rest =>
      let r := split_on sep rest in
      if Ascii.eqb c sep then EmptyString :: r
      else match r with
           | h :: t => String c h :: t
           | [] => [String c EmptyString]
           end
  end.

(** A JavaScript value used as a condition: [undefined] and the empty
    string are falsy. *)
Definition truthy (v : option string) : bool :=
  match v with
  | Some s => negb (String.eqb s "")
  | None => false
  end.

Definition is_space (c : ascii) : bool :=
  let n := nat_of_ascii c in
  (n =? 32)%nat || ((9 <=? n)%nat && (n <=? 13)%nat).

Fixpoint skip_spaces (s : string) : string :=
  match s with
  | String c rest => if is_space c then skip_spaces rest else s
  | EmptyString => s
  end.

Definition digit_value (c : ascii) : option Z :=
  let n := nat_of_ascii c in
  if ((48 <=? n) && (n <=? 57))%nat then Some (Z.of_nat (n - 48))
  else if ((97 <=? n) && (n <=? 102))%nat then Some (Z.of_nat (n - 87))
  else if ((65 <=? n) && (n <=? 70))%nat then Some (Z.of_nat (n - 55))
  else None.

(** The longest prefix of digits of the radix, read left to right;
    [None] when there is no digit. *)
Fixpoint read_digits (radix : Z) (acc : option Z) (s : string) : option Z :=
  match s with
  | EmptyString => acc
  | String c rest =>
      match digit_value c with
      | Some d =>
          if (d <? radix)%Z
          then read_digits radix
                 (Some (match acc with Some a => a * radix + d | None => d end)%Z) rest
          else acc
      | None => acc
      end
  end.

Definition strip_hex_prefix (s : string) : option string :=
  match s with
  | String "0" (String "x" rest) => Some rest
  | String "0" (String "X" rest) => Some rest
  | _ => None
  end.

(** The Number nearest to a natural number: itself up to 2^53, beyond that
    the nearest multiple of the spacing of the doubles of its size, the even
    one of two equally near, and [Infinity] from 2^1024 on. *)
Definition to_double (m : Z) : jsnum :=
  if (m <=? 2 ^ 53)%Z then Num m
  else
    let e := (Z.log2 m - 52)%Z in
    let q := Z.shiftr m e in
    let r := (m - Z.shiftl q e)%Z in
    let half := Z.shiftl 1 (e - 1) in
    let q' := if (half <? r)%Z || ((r =? half)%Z && Z.odd q) then (q + 1)%Z else q in
    if (2 ^ 1024 <=? Z.shiftl q' e)%Z then Infinite else Num (Z.shiftl q' e).

Definition js_negate (n : jsnum) : jsnum :=
  match n with
  | Num z => Num (- z)
  | other => other
  end.

(** [parseInt(s)] without a radix: leading ASCII white space, a sign, an
    optional [0x], then the longest run of digits, as a Number. *)
Definition parseInt (s : string) : jsnum :=
  let s1 := skip_spaces s in
  let '(neg, s2) :=
    match s1 with
    | String "-" rest => (true, rest)
    | String "+" rest => (false, rest)
    | _ => (false, s1)
    end in
  let magnitude :=
    match strip_hex_prefix s2 with
    | Some rest => read_digits 16 None rest
    | None => read_digits 10 None s2
    end in
  match magnitude with
  | Some m => if neg then js_negate (to_double m) else to_double m
  | None => NaN
  end.

(** [Math.ceil(a / b)], [n - 1] and [a * b] on integers; they are those of
    JavaScript as long as the results are safe integers. *)
Definition ceil_div (a b : Z) : jsnum :=
  if (b =? 0)%Z then (if (a =? 0)%Z then NaN else Infinite)
  else Num (- ((- a) / b))%Z.

Definition js_pred (n : jsnum) : jsnum :=
  match n with
  | Num z => Num (z - 1)
  | other => other
  end.

Definition js_mul (a b : jsnum) : jsnum :=
  match a, b with
  | Num x, Num y => Num (x * y)
  | Infinite, Num y => if (y =? 0)%Z then NaN else Infinite
  | Num x, Infinite => if (x =? 0)%Z then NaN else Infinite
  | Infinite, Infinite => Infinite
  | _, _ => NaN
  end.

Definition js_ceil_div (a : Z) (b : jsnum) : jsnum :=
  match b with
  | Num z => ceil_div a z
  | Infinite => Num 0
  | NaN => NaN
  end.

(** ** The handler monad: a store threaded through a body that may send a
    response early ([return res.status(..).send(..)]) or throw. *)

Inductive result (A : Type) : Type :=
| Val (a : A)
| Reply (r : Response)
| Raise (e : error).
Arguments Val {A} a.
Arguments Reply {A} r.
Arguments Raise {A} e.

Definition Handler (A : Type) : Type := Store -> result A * Store.

Definition ret {A} (a : A) : Handler A := fun st => (Val a, st).

Definition bind {A B} (m : Handler A) (k : A -> Handler B) : Handler B :=
  fun st =>
    match m st with
    | (Val a, st') => k a st'
    | (Reply r, st') => (Reply r, st')
    | (Raise e, st') => (Raise e, st')
    end.

Notation "x <- m ;; k" := (bind m (fun x => k))
  (at level 61, m at next level, right associativity).
Notation "m ;;; k" := (bind m (fun _ => k))
  (at level 61, right associativity).

Definition reply {A} (r : Response) : Handler A := fun st => (Reply r, st).
Definition raise {A} (e : error) : Handler A := fun st => (Raise e, st).
Definition gets {A} (f : Store -> A) : Handler A := fun st => (Val (f st), st).
Definition modify (f : Store -> Store) : Handler unit := fun st => (Val tt, f st).

(** [if (c) return res...;] *)
Definition return_if (c : bool) (r : Response) : Handler unit :=
  if c then reply r else ret tt.

(** [try { body } catch (error) { on_error }] around a whole handler. *)
Definition try_catch (body : Handler Response) (on_error : error -> Response)
  : Store -> Response * Store :=
  fun st =>
    match body st with
    | (Val r, st') => (r, st')
    | (Reply r, st') => (r, st')
    | (Raise e, st') => (on_error e, st')
    end.

Definition send (code : Z) (payload : json) : Response := mkResponse code payload.

Definition msg (text : string) : json := JObj [("msg", JStr text)].

(** ** Collections *)

Definition find_doc {A} (idof : A -> string) (coll : list A) (id : string) : option A :=
  find (fun d => String.eqb (idof d) id) coll.

(** [findByIdAndDelete]: the first document with that id goes. *)
Fixpoint remove_doc {A} (idof : A -> string) (coll : list A) (id : string) : list A :=
  match coll with
  | [] => []
  | d :: rest =>
      if String.eqb (idof d) id then rest else d :: remove_doc idof rest id
  end.

(** [doc.save()] of a loaded document: the first document with its id is
    overwritten. *)
Fixpoint replace_doc {A} (idof : A -> string) (coll : list A) (d : A) : list A :=
  match coll with
  | [] => []
  | old :: rest =>
      if String.eqb (idof old) (idof d) then d :: rest
      else old :: replace_doc idof rest d
  end.

Definition set_users (f : list User -> list User) (st : Store) : Store :=
  mkStore (f (users st)) (posts st) (commentDocs st).
Definition set_posts (f : list Post -> list Post) (st : Store) : Store :=
  mkStore (users st) (f (posts st)) (commentDocs st).
Definition set_commentDocs (f : list Comment -> list Comment) (st : Store) : Store :=
  mkStore (users st) (posts st) (f (commentDocs st)).

Definition required (path : string) (v : option string) : list string :=
  if truthy v then [] else [path].

Definition value_or_empty (v : option string) : string :=
  match v with Some s => s | None => "" end.

(** ** Request payloads *)

Record PostBody : Type := mkPostBody {
  body_stockSymbol : option string;
  body_title : option string;
  body_description : option string;
  body_tags : option (list string)
}.

Record ListQuery : Type := mkListQuery {
  query_stockSymbol : option string;
  query_tags : option string;
  query_sortBy : option string;
  query_page : option string;
  query_limit : option string
}.

(** ** JSON views of the documents *)

Definition strings_json (l : list string) : json := JArr (map JStr l).

(** A user document as [res.send] serialises it: every schema path and
    the version key, which no handler changes on a user or a comment. *)
Definition user_json (u : User) : json :=
  JObj [("_id", JStr (user_id u)); ("username", JStr (username u));
        ("email", JStr (email u)); ("password", JStr (password u));
        ("bio", JStr (bio u)); ("profilePicture", JStr (profilePicture u));
        ("createdAt", JNum (user_createdAt u)); ("__v", JNum 0)].

(** [.populate(path, 'username')]: the referenced user with [_id] and
    [username] only, [null] when the user is gone. *)
Definition populated_user (all : list User) (id : string) : json :=
  match find_doc user_id all id with
  | Some u => JObj [("_id", JStr (user_id u)); ("username", JStr (username u))]
  | None => JNull
  end.

Definition populated_comment (all : list User) (c : Comment) : json :=
  JObj [("_id", JStr (comment_id c)); ("user", populated_user all (comment_user c));
        ("post", JStr (comment_post c)); ("content", JStr (content c));
        ("createdAt", JNum (comment_createdAt c)); ("__v", JNum 0)].

(** Populating an array of references drops those that no longer resolve. *)
Fixpoint populated_comments (st : Store) (ids : list string) : list json :=
  match ids with
  | [] => []
  | id :: rest =>
      match find_doc comment_id (commentDocs st) id with
      | Some c => populated_comment (users st) c :: populated_comments st rest
      | None => populated_comments st rest
      end
  end.

Definition populated_post (st : Store) (p : Post) : json :=
  JObj [("_id", JStr (post_id p)); ("user", populated_user (users st) (post_user p));
        ("stockSymbol", JStr (stockSymbol p)); ("title", JStr (title p));
        ("description", JStr (description p)); ("tags", strings_json (tags p));
        ("comments", JArr (populated_comments st (comments p)));
        ("likes", strings_json (likes p)); ("createdAt", JNum (post_createdAt p));
        ("__v", JNum (post_v p))].

(** [.select("stockSymbol title description likes createdAt ")] *)
Definition selected_post (p : Post) : json :=
  JObj [("_id", JStr (post_id p)); ("stockSymbol", JStr (stockSymbol p));
        ("title", JStr (title p)); ("description", JStr (description p));
        ("likes", strings_json (likes p)); ("createdAt", JNum (post_createdAt p))].

Definition likesCount (p : Post) : Z := Z.of_nat (List.length (likes p)).

(** The [formattedPosts] projection of the paginated list. *)
Definition formatted_post (p : Post) : json :=
  JObj [("postId", JStr (post_id p)); ("stockSymbol", JStr (stockSymbol p));
        ("title", JStr (title p)); ("description", JStr (description p));
        ("likesCount", JNum (likesCount p)); ("createdAt", JNum (post_createdAt p))].

(** ** The list filter: [query.stockSymbol] and [query.tags = { $in: ... }] *)

Definition matches (q : ListQuery) (p : Post) : bool :=
  (if truthy (query_stockSymbol q)
   then String.eqb (stockSymbol p) (value_or_empty (query_stockSymbol q))
   else true)
  &&
  (if truthy (query_tags q)
   then existsb (fun wanted => existsb (String.eqb wanted) (tags p))
          (split_on "," (value_or_empty (query_tags q)))
   else true).

Definition sort_of (q : ListQuery) : SortKey :=
  match query_sortBy q with
  | Some "likes" => SortLikes
  | Some "date" => SortDate
  | _ => SortNone
  end.

Definition pageNumber (q : ListQuery) : jsnum :=
  match query_page q with
  | None => Num 1
  | Some s => parseInt s
  end.

Definition limitNumber (q : ListQuery) : jsnum :=
  match query_limit q with
  | None => Num 10
  | Some s => parseInt s
  end.

Definition skip (q : ListQuery) : jsnum := js_mul (js_pred (pageNumber q)) (limitNumber q).

(** ** The authentication middleware *)

Inductive gate : Type :=
| Next (user : string)
| Rejected (r : Response)
| Thrown (e : error).

(** What a protected route does with a request: a response was sent and the
    store is as given, or the middleware threw and nothing was sent. *)
Inductive served : Type :=
| Sent (r : Response) (st : Store)
| Unanswered (e : error).

Definition protected (g : gate) (handler : string -> Store -> Response * Store)
  (st : Store) : served :=
  match g with
  | Next user => let '(r, st') := handler user st in Sent r st'
  | Rejected r => Sent r st
  | Thrown e => Unanswered e
  end.

Definition set_likes (p : Post) (l : list string) : Post :=
  mkPost (post_id p) (post_user p) (stockSymbol p) (title p) (description p)
         (tags p) (comments p) l (post_createdAt p) (post_v p).

Definition set_comments (p : Post) (l : list string) : Post :=
  mkPost (post_id p) (post_user p) (stockSymbol p) (title p) (description p)
         (tags p) l (likes p) (post_createdAt p) (post_v p).

(** A save that writes an array path increments the version key. *)
Definition bump (p : Post) : Post :=
  mkPost (post_id p) (post_user p) (stockSymbol p) (title p) (description p)
         (tags p) (comments p) (likes p) (post_createdAt p) (post_v p + 1).

(** The required paths of the post schema that a document fails. *)
Definition post_paths (p : Post) : list string :=
  required "stockSymbol" (Some (stockSymbol p))
  ++ required "title" (Some (title p))
  ++ required "description" (Some (description p)).

Definition is_some {A} (o : option A) : bool :=
  match o with Some _ => true | None => false end.

Definition ok_message (text : string) : json :=
  JObj [("success", JBool true); ("message", JStr text)].

(** ** Persistence: schema validation, then the write.  Identities taken
    from a verified token are ObjectIds in their hex form. *)

Definition insert_post (invalid : list string) (p : Post) : Handler Post :=
  fun st =>
    match invalid with
    | _ :: _ => (Raise (ValidationError invalid), st)
    | [] =>
        match find_doc post_id (posts st) (post_id p) with
        | Some _ => (Raise (DuplicateKey "_id"), st)
        | None => (Val p, set_posts (fun l => l ++ [p]) st)
        end
    end.

Definition insert_comment (invalid : list string) (c : Comment) : Handler Comment :=
  fun st =>
    match invalid with
    | _ :: _ => (Raise (ValidationError invalid), st)
    | [] =>
        match find_doc comment_id (commentDocs st) (comment_id c) with
        | Some _ => (Raise (DuplicateKey "_id"), st)
        | None => (Val c, set_commentDocs (fun l => l ++ [c]) st)
        end
    end.

Definition insert_user (u : User) : Handler User :=
  fun st =>
    match required "username" (Some (username u)) ++ required "email" (Some (email u))
          ++ required "password" (Some (password u)) with
    | p :: ps => (Raise (ValidationError (p :: ps)), st)
    | [] =>
        if is_some (find_doc user_id (users st) (user_id u)) then (Raise (DuplicateKey "_id"), st)
        else if existsb (fun o => String.eqb (username o) (username u)) (users st)
        then (Raise (DuplicateKey "username"), st)
        else if existsb (fun o => String.eqb (email o) (email u)) (users st)
        then (Raise (DuplicateKey "email"), st)
        else (Val u, set_users (fun l => l ++ [u]) st)
    end.

(** [post.save()] of a loaded post whose likes or comments were changed:
    the document is validated again, then written with its version key
    incremented. *)
Definition save_post (p : Post) : Handler unit :=
  fun st =>
    match post_paths p with
    | [] => (Val tt, set_posts (fun l => replace_doc post_id l (bump p)) st)
    | path :: paths => (Raise (ValidationError (path :: paths)), st)
    end.

Definition findOne_by_email (mail : string) : Handler (option User) :=
  gets (fun st => find (fun u => String.eqb (email u) mail) (users st)).

(** [findByIdAndUpdate(id, { username, bio, profilePicture }, { new: true })] *)
Definition findByIdAndUpdate_user (id uname about picture : string)
  : Handler (option User) :=
  fun st =>
    match find_doc user_id (users st) id with
    | None => (Val None, st)
    | Some u =>
        let u' := mkUser (user_id u) uname (email u) (password u) about picture
                    (user_createdAt u) in
        if existsb (fun o => negb (String.eqb (user_id o) id) && String.eqb (username o) uname)
             (users st)
        then (Raise (DuplicateKey "username"), st)
        else (Val (Some u'), set_users (fun l => replace_doc user_id l u') st)
    end.

Section Handlers.

Context `{E : Engine}.

Definition server_error (e : error) : Response :=
  send 500 (JObj [("Server Error", JStr (error_message e))]).

(** The spelling under which a collection holds the ObjectId that [id] is
    cast to: [id] itself when a document is stored under it, and the hex
    form of the ObjectId otherwise. *)
Definition stored_id {A} (idof : A -> string) (coll : list A) (id : string) : string :=
  if is_some (find_doc idof coll id) then id else canonical id.

(** The document whose [_id] is the ObjectId that [id] is cast to. *)
Definition lookup {A} (idof : A -> string) (coll : list A) (id : string) : option A :=
  find_doc idof coll (stored_id idof coll id).

(** [Model.findById(id)]: the id is cast to an ObjectId first, and the
    document with that ObjectId is looked up. *)
Definition findById {A} (idof : A -> string) (coll : Store -> list A) (id : string)
  : Handler (option A) :=
  if castObjectId id then gets (fun st => lookup idof (coll st) id)
  else raise (CastError id "_id").

(** [Model.findByIdAndDelete(id)] *)
Definition findByIdAndDelete {A} (idof : A -> string) (coll : list A) (id : string)
  : list A :=
  remove_doc idof coll (stored_id idof coll id).

(** *** middleware/authMiddle.js *)

Definition authenticator (authorization : option string) : gate :=
  match authorization with
  | None => Thrown TypeError
  | Some header =>
      let token := nth_error (split_on " " header) 1 in
      if negb (truthy token)
      then Thrown (PlainError "Not authorized to access this resource")
      else match jwt_verify token with
           | Some user => Next user
           | None => Rejected (send 401 (msg "Token is not valid"))
           end
  end.

(** *** The later revision of the middleware (unnamed/part_006) *)

Definition authenticator_part_006 (authorization : option string) : gate :=
  if truthy authorization
  then
    let token := nth_error (split_on " " (value_or_empty authorization)) 1 in
    match jwt_verify token with
    | Some user => Next user
    | None => Rejected (send 401 (msg "Token is not valid"))
    end
  else Rejected (send 401 (msg "No token, authorization denied")).

(** *** routes/auth.js *)

Definition registration_failed : error -> Response :=
  fun _ => send 500 (JObj [("success", JBool false); ("message", JStr "Error registering user")]).

Definition authRouter_post_register (uname mail pass salt newId : string) (now : Z)
  : Store -> Response * Store :=
  try_catch
    (existing <- findOne_by_email mail ;;
     return_if (is_some existing) (send 400 (msg "User already exists, Please Login")) ;;;
     user <- insert_user (mkUser newId uname mail (bcrypt_hash pass salt) "" "" now) ;;
     ret (send 201 (JObj [("success", JBool true);
                          ("message", JStr "User registered successfully");
                          ("registeredUser", user_json user)])))
    registration_failed.

(** The later revision of the registration (unnamed/part_004). *)
Definition authRouter_post_register_part_004 (uname mail pass salt newId : string) (now : Z)
  : Store -> Response * Store :=
  try_catch
    (existing <- findOne_by_email mail ;;
     return_if (is_some existing) (send 400 (msg "User already exists, Please Login")) ;;;
     user <- insert_user (mkUser newId uname mail (bcrypt_hash pass salt) "" "" now) ;;
     ret (send 200 (JObj [("success", JBool true);
                          ("message", JStr "User registered successfully");
                          ("userId", JStr (user_id user))])))
    registration_failed.

Definition authRouter_post_login (mail pass : string) : Store -> Response * Store :=
  try_catch
    (found <- findOne_by_email mail ;;
     match found with
     | None => reply (send 404 (JObj [("message", JStr "User not found")]))
     | Some user =>
         return_if (negb (bcrypt_compare pass (password user)))
           (send 400 (JObj [("message", JStr "Invalid credentials")])) ;;;
         ret (send 200 (JObj [("token", JStr (jwt_sign (user_id user)));
                              ("user", JObj [("id", JStr (user_id user));
                                             ("username", JStr (username user));
                                             ("email", JStr (email user))])]))
     end)
    (fun _ => send 500 (JObj [("message", JStr "Server error")])).

(** *** routes/users.js (unnamed/part_000, unnamed/part_001) *)

Definition userRouter_get_profile (userId : string) : Store -> Response * Store :=
  try_catch
    (found <- findById user_id users userId ;;
     match found with
     | None => reply (send 404 (msg "User not found"))
     | Some user =>
         ret (send 200 (JObj [("id", JStr (user_id user));
                              ("username", JStr (username user));
                              ("bio", JStr (bio user));
                              ("profilePicture", JStr (profilePicture user))]))
     end)
    (fun _ => send 500 (JStr "Server Error")).

Definition userRouter_put_profile (user uname about picture : string)
  : Store -> Response * Store :=
  try_catch
    (_ <- findByIdAndUpdate_user user uname about picture ;;
     ret (send 200 (ok_message "Profile updated")))
    (fun _ => send 500 (JObj [("message", JStr "Error updating profile")])).

Definition userRouter_put_profile_part_001 (user uname about picture : string)
  : Store -> Response * Store :=
  try_catch
    (updated <- findByIdAndUpdate_user user uname about picture ;;
     return_if (negb (is_some updated)) (send 404 (msg "User not found")) ;;;
     ret (send 200 (ok_message "Profile updated")))
    (fun _ => send 500 (JObj [("message", JStr "Error updating profile")])).

(** *** routes/posts.js *)

Definition new_post (user : string) (b : PostBody) (newId : string) (now : Z) : Post :=
  mkPost newId user
    (value_or_empty (body_stockSymbol b))
    (value_or_empty (body_title b))
    (value_or_empty (body_description b))
    (match body_tags b with Some t => t | None => [] end)
    [] [] now 0.

Definition post_invalid_paths (b : PostBody) : list string :=
  required "stockSymbol" (body_stockSymbol b)
  ++ required "title" (body_title b)
  ++ required "description" (body_description b).

Definition Post_Router_post (user : string) (b : PostBody) (newId : string) (now : Z)
  : Store -> Response * Store :=
  try_catch
    (post <- insert_post (post_invalid_paths b) (new_post user b newId now) ;;
     ret (send 200 (JObj [("success", JBool true);
                          ("postId", JStr (post_id post));
                          ("message", JStr "Post created successfully")])))
    server_error.

(** The list without pagination (routes/posts.js). *)
Definition Post_Router_get (q : ListQuery) : Store -> Response * Store :=
  try_catch
    (found <- gets (fun st => engine_sort (sort_of q) (filter (matches q) (posts st))) ;;
     ret (send 200 (JObj [("posts", JArr (map selected_post found))])))
    server_error.

(** The paginated list (the revision with the Swagger annotations). *)
Definition Post_Router_get_paged (q : ListQuery) : Store -> Response * Store :=
  try_catch
    (totalPosts <- gets (fun st => Z.of_nat (List.length (filter (matches q) (posts st)))) ;;
     found <- gets (fun st =>
                engine_window (limitNumber q) (skip q)
                  (engine_sort (sort_of q) (filter (matches q) (posts st)))) ;;
     match found with
     | None => raise EngineError
     | Some page =>
         ret (send 200
                (JObj [("pagination",
                        JObj [("currentPage", jsnum_json (pageNumber q));
                              ("totalPages",
                               jsnum_json (js_ceil_div totalPosts (limitNumber q)));
                              ("totalPosts", JNum totalPosts)]);
                       ("posts", JArr (map formatted_post page))]))
     end)
    server_error.

Definition Post_Router_get_postId (postId : string) : Store -> Response * Store :=
  try_catch
    (found <- findById post_id posts postId ;;
     match found with
     | None => reply (send 404 (msg "Post not found"))
     | Some post =>
         st <- gets (fun st => st) ;;
         ret (send 200 (populated_post st post))
     end)
    server_error.

Definition Post_Router_delete_postId (user postId : string) : Store -> Response * Store :=
  try_catch
    (found <- findById post_id posts postId ;;
     match found with
     | None => reply (send 404 (msg "Post not found"))
     | Some post =>
         return_if (negb (String.eqb (post_user post) user))
           (send 401 (msg "User not authorized")) ;;;
         modify (set_posts (fun l => findByIdAndDelete post_id l postId)) ;;;
         ret (send 200 (ok_message "Post deleted successfully"))
     end)
    server_error.

Definition Post_Router_post_like (user postId : string) : Store -> Response * Store :=
  try_catch
    (found <- findById post_id posts postId ;;
     match found with
     | None => reply (send 404 (msg "Post not found"))
     | Some post =>
         return_if (existsb (String.eqb user) (likes post))
           (send 400 (msg "Post already liked")) ;;;
         save_post (set_likes post (user :: likes post)) ;;;
         ret (send 200 (ok_message "Post liked"))
     end)
    server_error.

Definition Post_Router_delete_like (user postId : string) : Store -> Response * Store :=
  try_catch
    (found <- findById post_id posts postId ;;
     match found with
     | None => reply (send 404 (msg "Post not found"))
     | Some post =>
         return_if (negb (existsb (String.eqb user) (likes post)))
           (send 400 (msg "Post has not yet been liked")) ;;;
         save_post (set_likes post
                      (filter (fun like => negb (String.eqb like user)) (likes post))) ;;;
         ret (send 200 (ok_message "Post unliked"))
     end)
    server_error.

(** *** routes/comments.js *)

(** [new Comment_Model({ user, post, content })]; [post] is cast to the
    ObjectId of the post, which the handlers give in its stored form. *)
Definition new_comment (user postId : string) (comment : option string)
  (newId : string) (now : Z) : Comment :=
  mkComment newId user postId (value_or_empty comment) now.

Definition comment_added (c : Comment) : Response :=
  send 200 (JObj [("success", JBool true);
                  ("commentId", JStr (comment_id c));
                  ("message", JStr "Comment added successfully")]).

(** The first revision (routes/comments.js): the comment is stored, the
    post is left as it is. *)
Definition Comment_Router_post_comments (user postId : string) (comment : option string)
  (newId : string) (now : Z) : Store -> Response * Store :=
  try_catch
    (found <- findById post_id posts postId ;;
     match found with
     | None => reply (send 404 (msg "Post not found"))
     | Some post =>
         c <- insert_comment (required "content" comment)
                (new_comment user (post_id post) comment newId now) ;;
         ret (comment_added c)
     end)
    server_error.

(** The later revision (unnamed/part_002): the comment id is pushed on
    [post.comments] and the post is saved. *)
Definition Comment_Router_post_comments_part_002 (user postId : string)
  (comment : option string) (newId : string) (now : Z) : Store -> Response * Store :=
  try_catch
    (found <- findById post_id posts postId ;;
     match found with
     | None => reply (send 404 (msg "Post not found"))
     | Some post =>
         c <- insert_comment (required "content" comment)
                (new_comment user (post_id post) comment newId now) ;;
         save_post (set_comments post (comments post ++ [comment_id c])) ;;;
         ret (comment_added c)
     end)
    server_error.

Definition Comment_Router_delete_with (denied : string) (user commentId : string)
  : Store -> Response * Store :=
  try_catch
    (found <- findById comment_id commentDocs commentId ;;
     match found with
     | None => reply (send 404 (msg "Comment not found"))
     | Some c =>
         return_if (negb (String.eqb (comment_user c) user)) (send 401 (msg denied)) ;;;
         modify (set_commentDocs (fun l => findByIdAndDelete comment_id l commentId)) ;;;
         ret (send 200 (ok_message "Comment deleted successfully"))
     end)
    (fun _ => send 500 (JStr "Server Error")).

Definition Comment_Router_delete_comment : string -> string -> Store -> Response * Store :=
  Comment_Router_delete_with "User not authorized".

Definition Comment_Router_delete_comment_part_002
  : string -> string -> Store -> Response * Store :=
  Comment_Router_delete_with "User not authorized to delete the comment".

(** ** Requests, as they reach the handlers of the routers, and histories *)

Inductive Request : Type :=
| Register (later : bool) (uname mail pass salt newId : string) (now : Z)
| Login (mail pass : string)
| GetProfile (userId : string)
| PutProfile (later : bool) (user uname about picture : string)
| CreatePost (user : string) (b : PostBody) (newId : string) (now : Z)
| ListPosts (paged : bool) (q : ListQuery)
| GetPost (postId : string)
| DeletePost (user postId : string)
| Like (user postId : string)
| Unlike (user postId : string)
| AddComment (later : bool) (user postId : string) (comment : option string)
    (newId : string) (now : Z)
| DeleteComment (later : bool) (user commentId : string).

Definition handle (rq : Request) : Store -> Response * Store :=
  match rq with
  | Register false u m p s i t => authRouter_post_register u m p s i t
  | Register true u m p s i t => authRouter_post_register_part_004 u m p s i t
  | Login m p => authRouter_post_login m p
  | GetProfile i => userRouter_get_profile i
  | PutProfile false u n a p => userRouter_put_profile u n a p
  | PutProfile true u n a p => userRouter_put_profile_part_001 u n a p
  | CreatePost u b i t => Post_Router_post u b i t
  | ListPosts false q => Post_Router_get q
  | ListPosts true q => Post_Router_get_paged q
  | GetPost i => Post_Router_get_postId i
  | DeletePost u i => Post_Router_delete_postId u i
  | Like u i => Post_Router_post_like u i
  | Unlike u i => Post_Router_delete_like u i
  | AddComment false u i c n t => Comment_Router_post_comments u i c n t
  | AddComment true u i c n t => Comment_Router_post_comments_part_002 u i c n t
  | DeleteComment false u i => Comment_Router_delete_comment u i
  | DeleteComment true u i => Comment_Router_delete_comment_part_002 u i
  end.

(** The store after a history of requests, served one after the other. *)
Fixpoint run (history : list Request) (st : Store) : Store :=
  match history with
  | [] => st
  | rq :: rest => run rest (snd (handle rq st))
  end.

Definition likes_unique (st : Store) : Prop :=
  Forall (fun p => NoDup (likes p)) (posts st).

(** Every stored post passes the validation that a save runs. *)
Definition posts_valid (st : Store) : Prop :=
  Forall (fun p => post_paths p = []) (posts st).

End Handlers.

(** ** A concrete engine, to run the handlers on examples *)

Definition hex24 (s : string) : bool :=
  (String.length s =? 24)%nat
  && forallb (fun c => is_some (digit_value c)) (list_ascii_of_string s).

Definition lower_ascii (c : ascii) : ascii :=
  let n := nat_of_ascii c in
  if ((65 <=? n) && (n <=? 90))%nat then ascii_of_nat (n + 32) else c.

Fixpoint lower (s : string) : string :=
  match s with
  | EmptyString => EmptyString
  | String c rest => String (lower_ascii c) (lower rest)
  end.

Definition demo_verify (t : option string) : option string :=
  match t with
  | Some (String "t" (String "k" (String ":" id))) => Some id
  | _ => None
  end.

Definition demo_window (l s : jsnum) (xs : list Post) : option (list Post) :=
  match l, s with
  | Num l, Num s =>
      if ((1 <=? l) && (0 <=? s))%Z
      then Some (firstn (Z.to_nat l) (skipn (Z.to_nat s) xs))
      else None
  | _, _ => None
  end.

Definition owns (st : Store) (user postId : string) : bool :=
  match find_doc post_id (posts st) postId with
  | Some p => String.eqb (post_user p) user
  | None => false
  end.

#[local] Instance demo_engine : Engine := {|
  castObjectId := hex24;
  canonical := lower;
  canonical_idem :=
    ltac:(intros s; induction s as [|c rest IH]; simpl; [reflexivity|];
          rewrite IH; f_equal;
          destruct c as [[] [] [] [] [] [] [] []]; reflexivity);
  jwt_verify := demo_verify;
  jwt_verify_absent := eq_refl;
  jwt_verify_empty := eq_refl;
  jwt_sign := fun id => String.append "tk:" id;
  bcrypt_hash := fun pass salt => String.append "$2b$10$" (String.append salt pass);
  bcrypt_compare := fun pass hash => String.eqb (substring 29 (String.length hash) hash) pass;
  error_message := fun e =>
    match e with
    | CastError _ _ => "Cast to ObjectId failed"
    | ValidationError _ => "Post validation failed"
    | DuplicateKey _ => "E11000 duplicate key error"
    | PlainError text => text
    | _ => "error"
    end;
  engine_sort := fun _ l => l;
  engine_window := demo_window;
  engine_sort_perm := fun _ l => Permutation_refl l;
  engine_window_regular :=
    ltac:(intros l s xs Hl Hs; unfold demo_window;
          apply Z.leb_le in Hl; apply Z.leb_le in Hs; now rewrite Hl, Hs)
|}.

Definition alice_id : string := "64b000000000000000000001".
Definition bob_id : string := "64b000000000000000000002".
Definition post1_id : string := "64c000000000000000000001".
Definition comment1_id : string := "64d000000000000000000001".
Definition demo_salt : string := "abcdefghijklmnopqrstuv".

Definition aapl : PostBody := mkPostBody (Some "AAPL") (Some "t") (Some "d") None.

(** Alice registers and posts, Bob likes the post and comments on it. *)
Definition demo_history : list Request :=
  [Register false "alice" "a@x.com" "secret" demo_salt alice_id 1;
   Register true "bob" "b@x.com" "hunter2" demo_salt bob_id 2;
   CreatePost alice_id aapl post1_id 3;
   Like bob_id post1_id;
   AddComment true bob_id post1_id (Some "nice") comment1_id 4].

Definition demo_store : Store := run demo_history empty_store.

Definition comment2_id : string := "64d000000000000000000002".

Definition no_title : PostBody := mkPostBody (Some "AAPL") None (Some "d") None.

(** Fifteen posts on one stock symbol, and the query for their second page. *)
Definition fifteen_posts : Store :=
  mkStore []
    (map (fun n => mkPost (String (ascii_of_nat (97 + n)) "") alice_id "AAPL" "t" "d"
                     [] [] [] (Z.of_nat n) 0)
       (seq 0 15))
    [].

Definition page_two : ListQuery :=
  mkListQuery (Some "AAPL") None None (Some "2") (Some "10").

(** The status classes of the error taxonomy. *)
Definition is_forbidden (r : Response) : bool :=
  ((status r =? 401) || (status r =? 403))%Z.

Definition is_client_error (r : Response) : bool :=
  ((400 <=? status r) && (status r <? 500))%Z.

(** ** Further notions used by the properties of the handlers *)

(** The uniqueness that the [_id] index and the [unique] schema paths
    stand for. *)
Definition store_wf (st : Store) : Prop :=
  NoDup (map user_id (users st))
  /\ NoDup (map email (users st))
  /\ NoDup (map username (users st))
  /\ NoDup (map post_id (posts st))
  /\ NoDup (map comment_id (commentDocs st)).

Definition json_field (k : string) (j : json) : option json :=
  match j with
  | JObj fields => option_map snd (find (fun kv => String.eqb (fst kv) k) fields)
  | _ => None
  end.

(** The [posts] array of a list response. *)
Definition items_of (r : Response) : list json :=
  match json_field "posts" (body r) with
  | Some (JArr items) => items
  | _ => []
  end.

Definition with_page (q : ListQuery) (page : string) : ListQuery :=
  mkListQuery (query_stockSymbol q) (query_tags q) (query_sortBy q) (Some page)
    (query_limit q).

(** The requests that only read, those of the user routes, and those of the
    post and comment routes. *)
Definition reads_only (rq : Request) : bool :=
  match rq with
  | Login _ _ | GetProfile _ | ListPosts _ _ | GetPost _ => true
  | _ => false
  end.

(** The one request whose handler saves a loaded document after it has
    already written: the comment route of the later revision. *)
Definition saves_after_write (rq : Request) : bool :=
  match rq with
  | AddComment true _ _ _ _ _ => true
  | _ => false
  end.

Definition on_users (rq : Request) : bool :=
  match rq with
  | Register _ _ _ _ _ _ _ | Login _ _ | GetProfile _ | PutProfile _ _ _ _ _ => true
  | _ => false
  end.

Definition has_space (s : string) : bool :=
  existsb (fun c => Ascii.eqb c " ") (list_ascii_of_string s).

Definition two_pages (k : nat) : string :=
  match k with
  | 1%nat => "1"
  | _ => "2"
  end.

Definition first_ten : ListQuery :=
  mkListQuery (Some "AAPL") None None None (Some "10").

Definition post2_id : string := "64c000000000000000000002".

(** Another spelling of the ObjectId of [post1_id]. *)
Definition post1_upper : string := "64C000000000000000000001".

(** A store seeded with a post that has no title, as no request leaves
    one. *)
Definition seeded_store : Store :=
  mkStore [] [mkPost post1_id alice_id "AAPL" "" "d" [] [] [] 1 0] [].

Definition carol_id : string := "64b000000000000000000003".

(** ** Properties *)

Example demo_store_posts :
  posts demo_store =
    [mkPost post1_id alice_id "AAPL" "t" "d" [] [comment1_id] [bob_id] 3 2].
Proof. reflexivity. Qed.

Example parseInt_examples :
  parseInt "2" = Num 2 /\ parseInt " 10px" = Num 10 /\ parseInt "-7" = Num (-7)
  /\ parseInt "0x1F" = Num 31 /\ parseInt "abc" = NaN /\ parseInt "" = NaN
  /\ parseInt "9007199254740993" = Num 9007199254740992
  /\ parseInt "9007199254740995" = Num 9007199254740996.
Proof. repeat split. Qed.

Example split_examples :
  split_on " " "Bearer abc" = ["Bearer"; "abc"]
  /\ split_on " " "Bearer" = ["Bearer"]
  /\ split_on "," "a,b,,c" = ["a"; "b"; ""; "c"]
  /\ split_on " " "" = [""].
Proof. repeat split. Qed.

(** *** Collections *)

Section Collections.

Context {A : Type} (idof : A -> string).

Lemma find_doc_id (coll : list A) (id : string) (d : A) :
  find_doc idof coll id = Some d -> idof d = id.
Proof.
  unfold find_doc. intros Hfind. apply find_some in Hfind.
  now apply String.eqb_eq.
Qed.

Lemma find_doc_In (coll : list A) (id : string) (d : A) :
  find_doc idof coll id = Some d -> In d coll.
Proof.
  unfold find_doc. intros Hfind. now apply find_some in Hfind.
Qed.

Lemma find_replace_doc (coll : list A) (id : string) (d d' : A) :
  find_doc idof coll id = Some d -> idof d' = id ->
  find_doc idof (replace_doc idof coll d') id = Some d'.
Proof.
  unfold find_doc. intros Hfind Hid. subst id.
  induction coll as [|x rest IH]; simpl in *; [discriminate|].
  destruct (String.eqb (idof x) (idof d')) eqn:Hx; simpl.
  - now rewrite String.eqb_refl.
  - rewrite Hx. now apply IH.
Qed.

Lemma find_doc_app_fresh (coll : list A) (d : A) :
  find_doc idof coll (idof d) = None ->
  find_doc idof (coll ++ [d]) (idof d) = Some d.
Proof.
  unfold find_doc. induction coll as [|x rest IH]; simpl; intros Hnone.
  - now rewrite String.eqb_refl.
  - destruct (String.eqb (idof x) (idof d)); [discriminate|]. now apply IH.
Qed.

Lemma Forall_replace_doc (P : A -> Prop) (coll : list A) (d : A) :
  Forall P coll -> P d -> Forall P (replace_doc idof coll d).
Proof.
  intros Hall Hd. induction Hall as [|x rest Hx Hrest IH]; simpl; [constructor|].
  destruct (String.eqb (idof x) (idof d)); constructor; assumption.
Qed.

Lemma Forall_remove_doc (P : A -> Prop) (coll : list A) (id : string) :
  Forall P coll -> Forall P (remove_doc idof coll id).
Proof.
  intros Hall. induction Hall as [|x rest Hx Hrest IH]; simpl; [constructor|].
  destruct (String.eqb (idof x) id); [assumption|constructor; assumption].
Qed.

End Collections.

Lemma existsb_eqb_In (x : string) (l : list string) :
  existsb (String.eqb x) l = true <-> In x l.
Proof.
  rewrite existsb_exists. split.
  - intros [y [Hin Heq]]. apply String.eqb_eq in Heq. now subst.
  - intros Hin. exists x. split; [assumption|apply String.eqb_refl].
Qed.

Lemma existsb_eqb_not_In (x : string) (l : list string) :
  existsb (String.eqb x) l = false <-> ~ In x l.
Proof.
  rewrite <- existsb_eqb_In. now destruct (existsb (String.eqb x) l).
Qed.

Lemma not_In_unliked (user : string) (l : list string) :
  ~ In user (filter (fun like => negb (String.eqb like user)) l).
Proof.
  rewrite filter_In. intros [_ Hneq]. now rewrite String.eqb_refl in Hneq.
Qed.

(** Taking out a member of a duplicate-free list shortens it by one. *)
Lemma length_unliked (user : string) (l : list string) :
  NoDup l -> In user l ->
  S (List.length (filter (fun like => negb (String.eqb like user)) l)) = List.length l.
Proof.
  intros Hnd. induction Hnd as [|x rest Hnotin Hnd IH]; simpl; [intros []|].
  intros [Heq | Hin].
  - subst x. rewrite String.eqb_refl. simpl. f_equal.
    clear IH Hnd. induction rest as [|y rest IH]; simpl; [reflexivity|].
    destruct (String.eqb y user) eqn:Hy.
    + apply String.eqb_eq in Hy. subst y. exfalso. apply Hnotin. now left.
    + simpl. f_equal. apply IH. intros Hin. apply Hnotin. now right.
  - destruct (String.eqb x user) eqn:Hx.
    + apply String.eqb_eq in Hx. subst x. contradiction.
    + simpl. f_equal. now apply IH.
Qed.

Lemma NoDup_unliked (user : string) (l : list string) :
  NoDup l -> NoDup (filter (fun like => negb (String.eqb like user)) l).
Proof. apply NoDup_filter. Qed.

Section Properties.

Context `{E : Engine}.

(** *** The authentication middleware *)

(** C2, first revision (middleware/authMiddle.js): a request without an
    Authorization header makes the middleware throw before its [try]; no
    401 is sent and the handler is not run.  The same happens when the
    header carries no token after the scheme. *)
Theorem authenticator_missing_header_throws
  (handler : string -> Store -> Response * Store) (st : Store) :
  protected (authenticator None) handler st = Unanswered TypeError
  /\ protected (authenticator (Some "Bearer")) handler st
     = Unanswered (PlainError "Not authorized to access this resource")
  /\ protected (authenticator (Some "Bearer ")) handler st
     = Unanswered (PlainError "Not authorized to access this resource").
Proof. repeat split. Qed.

(** The first revision does answer 401 once a non-empty token is present
    and does not verify. *)
Lemma authenticator_invalid_token (header token : string) :
  nth_error (split_on " " header) 1 = Some token -> token <> "" ->
  jwt_verify (Some token) = None ->
  authenticator (Some header) = Rejected (send 401 (msg "Token is not valid")).
Proof.
  intros Htok Hne Hbad. unfold authenticator. rewrite Htok. simpl.
  destruct (String.eqb token "") eqn:Heq.
  - apply String.eqb_eq in Heq. contradiction.
  - simpl. now rewrite Hbad.
Qed.

(** X1: the later revision (unnamed/part_006) is the gate the specification
    describes: every request is either rejected with 401, the handler not
    being run and the store left alone, or passed on with the identity that
    [jwt.verify] returned for its token. *)
Lemma authenticator_part_006_gate (authorization : option string)
  (handler : string -> Store -> Response * Store) (st : Store) :
  let token := nth_error (split_on " " (value_or_empty authorization)) 1 in
  (authorization = None ->
     protected (authenticator_part_006 authorization) handler st
     = Sent (send 401 (msg "No token, authorization denied")) st)
  /\ (jwt_verify token = None ->
     exists r, protected (authenticator_part_006 authorization) handler st = Sent r st
               /\ status r = 401%Z)
  /\ (truthy token = false ->
     exists r, protected (authenticator_part_006 authorization) handler st = Sent r st
               /\ status r = 401%Z)
  /\ (forall user, truthy authorization = true -> jwt_verify token = Some user ->
     authenticator_part_006 authorization = Next user).
Proof.
  intros token.
  assert (Hnone : jwt_verify token = None ->
     exists r, protected (authenticator_part_006 authorization) handler st = Sent r st
               /\ status r = 401%Z).
  { intros Hbad. unfold authenticator_part_006. fold token.
    destruct (truthy authorization); [rewrite Hbad|]; simpl; eexists; split; reflexivity. }
  repeat split.
  - intros ->. reflexivity.
  - exact Hnone.
  - intros Hfalsy. apply Hnone. destruct token as [t|]; [|apply jwt_verify_absent].
    simpl in Hfalsy. apply negb_false_iff, String.eqb_eq in Hfalsy. subst t.
    apply jwt_verify_empty.
  - intros user Hhdr Hok. unfold authenticator_part_006. fold token.
    now rewrite Hhdr, Hok.
Qed.

(** *** Passwords in response payloads *)

Ltac unfold_handler :=
  unfold try_catch, bind, ret, reply, raise, gets, modify, return_if,
    findById, save_post, insert_post, insert_comment, insert_user,
    findOne_by_email, findByIdAndUpdate_user, server_error, registration_failed,
    comment_added, send in *.

Ltac atomic_scrutinee x :=
  lazymatch x with
  | context [match _ with _ => _ end] => fail
  | _ => idtac
  end.

Ltac split_cases :=
  repeat match goal with
         | |- context [match ?x with _ => _ end] =>
             atomic_scrutinee x; destruct x eqn:?; simpl in *
         end.

(** C1 on the first revision of the registration (routes/auth.js): every
    successful registration echoes the stored document, and with it the
    [password] path, whose value is the bcrypt hash that was stored. *)
Theorem register_echoes_password_hash
  (uname mail pass salt newId : string) (now : Z) (st : Store) :
  status (fst (authRouter_post_register uname mail pass salt newId now st)) = 201%Z ->
  has_key "password" (body (fst (authRouter_post_register uname mail pass salt newId now st)))
  = true
  /\ has_string (bcrypt_hash pass salt)
       (body (fst (authRouter_post_register uname mail pass salt newId now st))) = true
  /\ In (mkUser newId uname mail (bcrypt_hash pass salt) "" "" now)
       (users (snd (authRouter_post_register uname mail pass salt newId now st))).
Proof.
  unfold authRouter_post_register. unfold_handler. simpl.
  destruct (find (fun u => String.eqb (email u) mail) (users st)); simpl;
    [discriminate|].
  destruct (required "username" (Some uname) ++ required "email" (Some mail)
            ++ required "password" (Some (bcrypt_hash pass salt))); simpl;
    [|discriminate].
  destruct (is_some (find_doc user_id (users st) newId)); simpl; [discriminate|].
  destruct (existsb (fun o => String.eqb (username o) uname) (users st)); simpl;
    [discriminate|].
  destruct (existsb (fun o => String.eqb (email o) mail) (users st)); simpl;
    [discriminate|].
  intros _. rewrite String.eqb_refl, !orb_true_r. repeat split.
  apply in_or_app. right. now left.
Qed.

Lemma no_key_in_strings (k : string) (l : list string) :
  existsb (has_key k) (map JStr l) = false.
Proof. induction l; simpl; auto. Qed.

Lemma no_password_in_populated_user (all : list User) (id : string) :
  has_key "password" (populated_user all id) = false.
Proof. unfold populated_user. now destruct (find_doc user_id all id). Qed.

Lemma no_password_in_populated_comments (st : Store) (ids : list string) :
  existsb (has_key "password") (populated_comments st ids) = false.
Proof.
  induction ids as [|id rest IH]; simpl; [reflexivity|].
  destruct (find_doc comment_id (commentDocs st) id); [|assumption].
  simpl. now rewrite no_password_in_populated_user, IH.
Qed.

Lemma no_password_in_populated_post (st : Store) (p : Post) :
  has_key "password" (populated_post st p) = false.
Proof.
  simpl. now rewrite no_password_in_populated_user, !no_key_in_strings,
    no_password_in_populated_comments.
Qed.

Lemma no_password_in_selected (l : list Post) :
  existsb (has_key "password") (map selected_post l) = false.
Proof.
  induction l as [|p rest IH]; simpl; [reflexivity|].
  now rewrite no_key_in_strings, IH.
Qed.

Lemma no_key_in_jsnum (k : string) (n : jsnum) : has_key k (jsnum_json n) = false.
Proof. now destruct n. Qed.

Lemma no_password_in_formatted (l : list Post) :
  existsb (has_key "password") (map formatted_post l) = false.
Proof. induction l as [|p rest IH]; simpl; auto. Qed.

(** X2: every other handler, the later revision of the registration
    included, sends payloads without a [password] field. *)
Lemma no_password_elsewhere (rq : Request) (st : Store) :
  (forall u m p s i t, rq <> Register false u m p s i t) ->
  has_key "password" (body (fst (handle rq st))) = false.
Proof.
  intros Hrq. destruct rq as [[] ? ? ? ? ? ?| | |[] ? ? ? ?| |[] ?| | | | |[] ? ? ? ? ?|[] ? ?];
    simpl;
    try (exfalso; eapply Hrq; reflexivity);
    unfold authRouter_post_register_part_004, authRouter_post_login,
      userRouter_get_profile, userRouter_put_profile, userRouter_put_profile_part_001,
      Post_Router_post, Post_Router_get, Post_Router_get_paged, Post_Router_get_postId,
      Post_Router_delete_postId, Post_Router_post_like, Post_Router_delete_like,
      Comment_Router_post_comments, Comment_Router_post_comments_part_002,
      Comment_Router_delete_comment, Comment_Router_delete_comment_part_002,
      Comment_Router_delete_with;
    unfold_handler; simpl; split_cases;
    rewrite ?no_password_in_populated_post, ?no_password_in_selected,
      ?no_password_in_formatted, ?no_key_in_jsnum, ?no_password_in_populated_user,
      ?no_key_in_strings, ?no_password_in_populated_comments; reflexivity.
Qed.

(** *** Looking a document up by the ObjectId of an id *)

Section Lookup.

Context {A : Type} (idof : A -> string).

Lemma stored_id_exact (coll : list A) (id : string) (d : A) :
  find_doc idof coll id = Some d -> stored_id idof coll id = id.
Proof. unfold stored_id. now intros ->. Qed.

Lemma lookup_exact (coll : list A) (id : string) (d : A) :
  find_doc idof coll id = Some d -> lookup idof coll id = Some d.
Proof.
  intros Hfind. unfold lookup. now rewrite (stored_id_exact coll id d Hfind).
Qed.

Lemma lookup_other_spelling (coll : list A) (id : string) :
  find_doc idof coll id = None -> lookup idof coll id = find_doc idof coll (canonical id).
Proof. unfold lookup, stored_id. now intros ->. Qed.

Lemma lookup_canonical (coll : list A) (id : string) :
  canonical id = id -> lookup idof coll id = find_doc idof coll id.
Proof.
  unfold lookup, stored_id. intros Hid.
  destruct (is_some (find_doc idof coll id)); [reflexivity|now rewrite Hid].
Qed.


Lemma lookup_id (coll : list A) (id : string) (d : A) :
  lookup idof coll id = Some d -> idof d = stored_id idof coll id.
Proof. unfold lookup. apply find_doc_id. Qed.

Lemma lookup_In (coll : list A) (id : string) (d : A) :
  lookup idof coll id = Some d -> In d coll.
Proof. unfold lookup. apply find_doc_In. Qed.

Lemma is_some_find_replace (coll : list A) (d : A) (id : string) :
  is_some (find_doc idof (replace_doc idof coll d) id) = is_some (find_doc idof coll id).
Proof.
  unfold find_doc. induction coll as [|x rest IH]; simpl; [reflexivity|].
  destruct (String.eqb_spec (idof x) (idof d)) as [Heq|Hneq]; simpl.
  - rewrite <- Heq. now destruct (String.eqb (idof x) id).
  - now destruct (String.eqb (idof x) id).
Qed.

Lemma stored_id_replace (coll : list A) (d : A) (id : string) :
  stored_id idof (replace_doc idof coll d) id = stored_id idof coll id.
Proof. unfold stored_id. now rewrite is_some_find_replace. Qed.

(** After a found document was written back under its own id, the same id
    finds what was written. *)
Lemma lookup_replace (coll : list A) (id : string) (d d' : A) :
  lookup idof coll id = Some d -> idof d' = idof d ->
  lookup idof (replace_doc idof coll d') id = Some d'.
Proof.
  intros Hfound Hid. unfold lookup. rewrite stored_id_replace.
  apply find_replace_doc with (d := d); [exact Hfound|].
  rewrite Hid. now apply lookup_id.
Qed.

End Lookup.

(** *** The equations of the handlers that look a document up by id *)

Lemma get_postId_eq (postId : string) (st : Store) :
  Post_Router_get_postId postId st =
    if castObjectId postId then
      match lookup post_id (posts st) postId with
      | None => (send 404 (msg "Post not found"), st)
      | Some post => (send 200 (populated_post st post), st)
      end
    else (server_error (CastError postId "_id"), st).
Proof.
  unfold Post_Router_get_postId. unfold_handler.
  destruct (castObjectId postId); [cbn|reflexivity].
  now destruct (lookup post_id (posts st) postId).
Qed.

Lemma delete_postId_eq (user postId : string) (st : Store) :
  Post_Router_delete_postId user postId st =
    if castObjectId postId then
      match lookup post_id (posts st) postId with
      | None => (send 404 (msg "Post not found"), st)
      | Some post =>
          if String.eqb (post_user post) user
          then (send 200 (ok_message "Post deleted successfully"),
                set_posts (fun l => findByIdAndDelete post_id l postId) st)
          else (send 401 (msg "User not authorized"), st)
      end
    else (server_error (CastError postId "_id"), st).
Proof.
  unfold Post_Router_delete_postId. unfold_handler.
  destruct (castObjectId postId); [cbn|reflexivity].
  destruct (lookup post_id (posts st) postId) as [post|]; [cbn|reflexivity].
  now destruct (String.eqb (post_user post) user).
Qed.

Lemma post_like_eq (user postId : string) (st : Store) :
  Post_Router_post_like user postId st =
    if castObjectId postId then
      match lookup post_id (posts st) postId with
      | None => (send 404 (msg "Post not found"), st)
      | Some post =>
          if existsb (String.eqb user) (likes post)
          then (send 400 (msg "Post already liked"), st)
          else
            match post_paths post with
            | [] =>
                (send 200 (ok_message "Post liked"),
                 set_posts (fun l => replace_doc post_id l
                                       (bump (set_likes post (user :: likes post)))) st)
            | path :: paths => (server_error (ValidationError (path :: paths)), st)
            end
      end
    else (server_error (CastError postId "_id"), st).
Proof.
  unfold Post_Router_post_like. unfold_handler.
  destruct (castObjectId postId); [cbn|reflexivity].
  destruct (lookup post_id (posts st) postId) as [post|]; [cbn|reflexivity].
  destruct (existsb (String.eqb user) (likes post)); [reflexivity|cbn].
  change (post_paths (set_likes post (user :: likes post))) with (post_paths post).
  now destruct (post_paths post).
Qed.

Lemma delete_like_eq (user postId : string) (st : Store) :
  Post_Router_delete_like user postId st =
    if castObjectId postId then
      match lookup post_id (posts st) postId with
      | None => (send 404 (msg "Post not found"), st)
      | Some post =>
          if existsb (String.eqb user) (likes post)
          then
            match post_paths post with
            | [] =>
                (send 200 (ok_message "Post unliked"),
                 set_posts (fun l => replace_doc post_id l
                   (bump (set_likes post
                            (filter (fun like => negb (String.eqb like user))
                               (likes post))))) st)
            | path :: paths => (server_error (ValidationError (path :: paths)), st)
            end
          else (send 400 (msg "Post has not yet been liked"), st)
      end
    else (server_error (CastError postId "_id"), st).
Proof.
  unfold Post_Router_delete_like. unfold_handler.
  destruct (castObjectId postId); [cbn|reflexivity].
  destruct (lookup post_id (posts st) postId) as [post|]; [cbn|reflexivity].
  destruct (existsb (String.eqb user) (likes post)); [cbn|reflexivity].
  change (post_paths (set_likes post
            (filter (fun like => negb (String.eqb like user)) (likes post))))
    with (post_paths post).
  now destruct (post_paths post).
Qed.

Lemma delete_comment_eq (denied user commentId : string) (st : Store) :
  Comment_Router_delete_with denied user commentId st =
    if castObjectId commentId then
      match lookup comment_id (commentDocs st) commentId with
      | None => (send 404 (msg "Comment not found"), st)
      | Some c =>
          if String.eqb (comment_user c) user
          then (send 200 (ok_message "Comment deleted successfully"),
                set_commentDocs (fun l => findByIdAndDelete comment_id l commentId) st)
          else (send 401 (msg denied), st)
      end
    else (send 500 (JStr "Server Error"), st).
Proof.
  unfold Comment_Router_delete_with. unfold_handler.
  destruct (castObjectId commentId); [cbn|reflexivity].
  destruct (lookup comment_id (commentDocs st) commentId) as [c|]; [cbn|reflexivity].
  now destruct (String.eqb (comment_user c) user).
Qed.


Lemma post_comments_part_002_eq (user postId : string) (comment : option string)
  (newId : string) (now : Z) (st : Store) :
  Comment_Router_post_comments_part_002 user postId comment newId now st =
    if castObjectId postId then
      match lookup post_id (posts st) postId with
      | None => (send 404 (msg "Post not found"), st)
      | Some post =>
          if truthy comment then
            match find_doc comment_id (commentDocs st) newId with
            | Some _ => (server_error (DuplicateKey "_id"), st)
            | None =>
                match post_paths post with
                | [] =>
                    (comment_added (new_comment user (post_id post) comment newId now),
                     set_posts (fun l => replace_doc post_id l
                                  (bump (set_comments post (comments post ++ [newId]))))
                       (set_commentDocs
                          (fun l => l ++ [new_comment user (post_id post) comment newId now])
                          st))
                | path :: paths =>
                    (server_error (ValidationError (path :: paths)),
                     set_commentDocs
                       (fun l => l ++ [new_comment user (post_id post) comment newId now])
                       st)
                end
            end
          else (server_error (ValidationError ["content"]), st)
      end
    else (server_error (CastError postId "_id"), st).
Proof.
  unfold Comment_Router_post_comments_part_002. unfold_handler.
  destruct (castObjectId postId); [cbn|reflexivity].
  destruct (lookup post_id (posts st) postId) as [post|]; [cbn|reflexivity].
  unfold required. destruct (truthy comment); cbn; [|reflexivity].
  destruct (find_doc comment_id (commentDocs st) newId); [reflexivity|cbn].
  change (post_paths (set_comments post (comments post ++ [newId])))
    with (post_paths post).
  now destruct (post_paths post).
Qed.

Lemma post_eq (user : string) (b : PostBody) (newId : string) (now : Z) (st : Store) :
  Post_Router_post user b newId now st =
    match post_invalid_paths b with
    | _ :: _ => (server_error (ValidationError (post_invalid_paths b)), st)
    | [] =>
        match find_doc post_id (posts st) newId with
        | Some _ => (server_error (DuplicateKey "_id"), st)
        | None =>
            (send 200 (JObj [("success", JBool true); ("postId", JStr newId);
                             ("message", JStr "Post created successfully")]),
             set_posts (fun l => l ++ [new_post user b newId now]) st)
        end
    end.
Proof.
  unfold Post_Router_post. unfold_handler.
  destruct (post_invalid_paths b); cbn; [|reflexivity].
  now destruct (find_doc post_id (posts st) newId).
Qed.

(** *** Deleting as somebody else *)

(** C3, as amended: a caller who is not the owner of an existing post gets
    401 from the delete, the store is left as it was and the post is still
    served by the get; the same holds for a comment and a caller who is not
    its author.  When the post or the comment does not exist the answer is
    404, whoever calls.  A post or comment exists for an id when the
    collection holds a document with the ObjectId that the id is cast to. *)
Theorem delete_by_non_owner (denied user id : string) (st : Store) :
  castObjectId id = true ->
  (forall post, lookup post_id (posts st) id = Some post -> post_user post <> user ->
     Post_Router_delete_postId user id st = (send 401 (msg "User not authorized"), st)
     /\ is_forbidden (fst (Post_Router_delete_postId user id st)) = true
     /\ fst (Post_Router_get_postId id (snd (Post_Router_delete_postId user id st)))
        = send 200 (populated_post st post))
  /\ (lookup post_id (posts st) id = None ->
      Post_Router_delete_postId user id st = (send 404 (msg "Post not found"), st))
  /\ (forall c, lookup comment_id (commentDocs st) id = Some c -> comment_user c <> user ->
      Comment_Router_delete_with denied user id st = (send 401 (msg denied), st)
      /\ is_forbidden (fst (Comment_Router_delete_with denied user id st)) = true)
  /\ (lookup comment_id (commentDocs st) id = None ->
      Comment_Router_delete_with denied user id st
      = (send 404 (msg "Comment not found"), st)).
Proof.
  intros Hcast. rewrite delete_postId_eq, delete_comment_eq, Hcast.
  split; [|split; [|split]].
  - intros post Hfind Hother. rewrite Hfind.
    apply String.eqb_neq in Hother. rewrite Hother. simpl.
    split; [reflexivity|]. split; [reflexivity|].
    now rewrite get_postId_eq, Hcast, Hfind.
  - now intros ->.
  - intros c Hfind Hother. rewrite Hfind.
    apply String.eqb_neq in Hother. rewrite Hother. now split.
  - now intros ->.
Qed.

Ltac unfold_routes :=
  unfold authRouter_post_register, authRouter_post_register_part_004,
    authRouter_post_login, userRouter_get_profile, userRouter_put_profile,
    userRouter_put_profile_part_001, Post_Router_post, Post_Router_get,
    Post_Router_get_paged, Post_Router_get_postId, Post_Router_delete_postId,
    Post_Router_post_like, Post_Router_delete_like, Comment_Router_post_comments,
    Comment_Router_post_comments_part_002, Comment_Router_delete_comment,
    Comment_Router_delete_comment_part_002, Comment_Router_delete_with.

(** *** The stored posts pass the validation of a save *)

Lemma new_post_paths (user : string) (b : PostBody) (newId : string) (now : Z) :
  post_invalid_paths b = [] -> post_paths (new_post user b newId now) = [].
Proof.
  unfold post_invalid_paths, post_paths, required. simpl.
  destruct (body_stockSymbol b) as [s1|], (body_title b) as [s2|],
    (body_description b) as [s3|]; simpl; try discriminate;
    destruct (String.eqb s1 ""); simpl; try discriminate;
    destruct (String.eqb s2 ""); simpl; try discriminate;
    destruct (String.eqb s3 ""); simpl; try discriminate; reflexivity.
Qed.

Lemma handle_preserves_posts_valid (rq : Request) (st : Store) :
  posts_valid st -> posts_valid (snd (handle rq st)).
Proof.
  intros Hinv.
  destruct rq as [[] ? ? ? ? ? ?| | |[] ? ? ? ?| |[] ?| | | | |[] ? ? ? ? ?|[] ? ?];
    simpl; unfold_routes; unfold_handler; unfold findByIdAndDelete, lookup in *;
    simpl; split_cases;
    try assumption;
    unfold posts_valid in *; simpl;
    repeat match goal with
           | |- Forall _ (_ ++ _) => apply Forall_app; split; [assumption|]
           | |- Forall _ [_] => constructor; [|constructor]
           | |- Forall _ (remove_doc _ _ _) => apply Forall_remove_doc; assumption
           | |- Forall _ (replace_doc _ _ _) =>
               apply Forall_replace_doc; [assumption|assumption]
           | H : post_invalid_paths ?b = [] |- post_paths (new_post _ ?b _ _) = [] =>
               now apply new_post_paths
           end.
Qed.

Lemma run_preserves_posts_valid (history : list Request) (st : Store) :
  posts_valid st -> posts_valid (run history st).
Proof.
  revert st. induction history as [|rq rest IH]; simpl; intros st Hinv; [assumption|].
  apply IH. now apply handle_preserves_posts_valid.
Qed.

Lemma reachable_post_valid (history : list Request) (postId : string) (post : Post) :
  lookup post_id (posts (run history empty_store)) postId = Some post ->
  post_paths post = [].
Proof.
  intros Hfound. apply lookup_In in Hfound.
  assert (Hvalid : posts_valid (run history empty_store))
    by (apply run_preserves_posts_valid; constructor).
  unfold posts_valid in Hvalid. rewrite Forall_forall in Hvalid. now apply Hvalid.
Qed.

(** *** Likes *)

(** C4: on a well-formed post id, the like answers 404 exactly when no
    post has the ObjectId of the id; on an existing post it answers 400
    "Post already liked" exactly when the caller is in the likes, leaving the
    store alone; otherwise, the stored post passing the validation of its
    save, it answers 200 and the stored post has the caller in front of its
    former likes.  The posts of a store reached by a history of requests
    all pass that validation. *)
Theorem like_outcome (user postId : string) (st : Store) :
  castObjectId postId = true ->
  (status (fst (Post_Router_post_like user postId st)) = 404%Z
   <-> lookup post_id (posts st) postId = None)
  /\ (forall post, lookup post_id (posts st) postId = Some post ->
       (status (fst (Post_Router_post_like user postId st)) = 400%Z
        <-> In user (likes post))
       /\ (In user (likes post) ->
           Post_Router_post_like user postId st
           = (send 400 (msg "Post already liked"), st))
       /\ (~ In user (likes post) -> post_paths post = [] ->
           fst (Post_Router_post_like user postId st) = send 200 (ok_message "Post liked")
           /\ lookup post_id (posts (snd (Post_Router_post_like user postId st))) postId
              = Some (bump (set_likes post (user :: likes post)))
           /\ likes (bump (set_likes post (user :: likes post))) = user :: likes post))
  /\ (forall history post,
        st = run history empty_store ->
        lookup post_id (posts st) postId = Some post -> post_paths post = []).
Proof.
  intros Hcast. rewrite post_like_eq, Hcast.
  split; [|split;
             [|intros history post -> Hfind;
               exact (reachable_post_valid history postId post Hfind)]].
  - destruct (lookup post_id (posts st) postId) as [post|]; [|now split].
    destruct (existsb (String.eqb user) (likes post)); simpl; [split; discriminate|].
    destruct (post_paths post); simpl; split; discriminate.
  - intros post Hfind. rewrite Hfind.
    destruct (existsb (String.eqb user) (likes post)) eqn:Hin.
    + apply existsb_eqb_In in Hin. repeat split; auto; contradiction.
    + apply existsb_eqb_not_In in Hin.
      split; [|split; [intros Hyes; contradiction|]].
      * destruct (post_paths post); simpl; split; try discriminate; contradiction.
      * intros _ Hvalid. rewrite Hvalid. simpl.
        split; [reflexivity|]. split; [|reflexivity].
        now apply lookup_replace with (d := post).
Qed.

(** *** Creating a post *)

Lemma post_invalid_paths_nil (b : PostBody) :
  post_invalid_paths b = [] <->
  truthy (body_stockSymbol b) = true /\ truthy (body_title b) = true
  /\ truthy (body_description b) = true.
Proof.
  unfold post_invalid_paths, required.
  destruct (truthy (body_stockSymbol b)), (truthy (body_title b)),
    (truthy (body_description b)); simpl; split; intros H;
    try discriminate; try easy; repeat split; destruct H as [? [? ?]]; discriminate.
Qed.

(** C7, as amended: when stockSymbol, title or description is empty or
    missing, the creation answers 500 with the validation error and nothing
    is stored; when the three are present (and the generated id is new),
    the creation answers 200, the post is stored with the caller as its
    owner, and omitted tags are the empty list. *)
Theorem create_post_outcome (user : string) (b : PostBody) (newId : string) (now : Z)
  (st : Store) :
  (truthy (body_stockSymbol b) = false \/ truthy (body_title b) = false
   \/ truthy (body_description b) = false ->
   Post_Router_post user b newId now st
   = (server_error (ValidationError (post_invalid_paths b)), st)
   /\ status (fst (Post_Router_post user b newId now st)) = 500%Z)
  /\ (truthy (body_stockSymbol b) = true -> truthy (body_title b) = true ->
      truthy (body_description b) = true ->
      find_doc post_id (posts st) newId = None ->
      status (fst (Post_Router_post user b newId now st)) = 200%Z
      /\ posts (snd (Post_Router_post user b newId now st))
         = posts st ++ [new_post user b newId now]
      /\ post_user (new_post user b newId now) = user
      /\ likes (new_post user b newId now) = []
      /\ (body_tags b = None -> tags (new_post user b newId now) = [])).
Proof.
  rewrite post_eq. split.
  - intros Hmissing.
    destruct (post_invalid_paths b) eqn:Hpaths; [|now split].
    apply post_invalid_paths_nil in Hpaths. destruct Hpaths as [H1 [H2 H3]].
    rewrite H1, H2, H3 in Hmissing. now destruct Hmissing as [|[|]].
  - intros H1 H2 H3 Hfresh.
    assert (Hpaths : post_invalid_paths b = []) by now apply post_invalid_paths_nil.
    rewrite Hpaths, Hfresh. simpl. repeat split. now intros ->.
Qed.

(** *** Adding a comment *)

(** C9 on the revision that keeps the comment list (unnamed/part_002): on
    a well-formed post id, the answer is 404 exactly when no post has the
    ObjectId of the id; a 200 means that the comment document was appended to
    the comments, with the caller as author and the post as parent, and that
    the stored post has the new comment id at the end of its comment list;
    and a non-empty comment on an existing post that passes the validation of
    its save, under a new id, gets that 200.  The posts of a store reached
    by a history of requests all pass that validation. *)
Theorem comment_add_outcome (user postId : string) (comment : option string)
  (newId : string) (now : Z) (st : Store) :
  castObjectId postId = true ->
  (status (fst (Comment_Router_post_comments_part_002 user postId comment newId now st))
   = 404%Z <-> lookup post_id (posts st) postId = None)
  /\ (status (fst (Comment_Router_post_comments_part_002 user postId comment newId now st))
      = 200%Z ->
      exists post,
        lookup post_id (posts st) postId = Some post
        /\ commentDocs (snd (Comment_Router_post_comments_part_002
                               user postId comment newId now st))
           = commentDocs st
             ++ [mkComment newId user (post_id post) (value_or_empty comment) now]
        /\ lookup post_id
             (posts (snd (Comment_Router_post_comments_part_002
                            user postId comment newId now st))) postId
           = Some (bump (set_comments post (comments post ++ [newId])))
        /\ comments (bump (set_comments post (comments post ++ [newId])))
           = comments post ++ [newId])
  /\ (forall post, lookup post_id (posts st) postId = Some post ->
      truthy comment = true -> find_doc comment_id (commentDocs st) newId = None ->
      post_paths post = [] ->
      fst (Comment_Router_post_comments_part_002 user postId comment newId now st)
      = send 200 (JObj [("success", JBool true); ("commentId", JStr newId);
                        ("message", JStr "Comment added successfully")]))
  /\ (forall history post,
        st = run history empty_store ->
        lookup post_id (posts st) postId = Some post -> post_paths post = []).
Proof.
  intros Hcast.
  assert (Hreach : forall history post,
             st = run history empty_store ->
             lookup post_id (posts st) postId = Some post -> post_paths post = []).
  { intros history post -> Hfind. exact (reachable_post_valid history postId post Hfind). }
  rewrite post_comments_part_002_eq, Hcast.
  destruct (lookup post_id (posts st) postId) as [post|] eqn:Hfind.
  - split; [|split; [|split; [|exact Hreach]]].
    + destruct (truthy comment); [|split; discriminate].
      destruct (find_doc comment_id (commentDocs st) newId); [split; discriminate|].
      destruct (post_paths post); split; discriminate.
    + destruct (truthy comment); [|discriminate].
      destruct (find_doc comment_id (commentDocs st) newId); [discriminate|].
      destruct (post_paths post); [|discriminate].
      intros _. exists post. split; [reflexivity|]. split; [reflexivity|].
      split; [|reflexivity]. simpl.
      now apply lookup_replace with (d := post).
    + intros p Hp Hc Hfresh Hvalid. injection Hp as <-.
      now rewrite Hc, Hfresh, Hvalid.
  - split; [now split|].
    split; [discriminate|]. split; [discriminate|exact Hreach].
Qed.

(** *** Ill-formed ids *)


(** *** The likes of a post hold a user at most once *)

Lemma likes_unique_found (st : Store) (postId : string) (post : Post) :
  likes_unique st -> find_doc post_id (posts st) postId = Some post -> NoDup (likes post).
Proof.
  intros Hinv Hfind. apply find_doc_In in Hfind.
  unfold likes_unique in Hinv. rewrite Forall_forall in Hinv. now apply Hinv.
Qed.

Lemma handle_preserves_likes_unique (rq : Request) (st : Store) :
  likes_unique st -> likes_unique (snd (handle rq st)).
Proof.
  intros Hinv.
  destruct rq as [[] ? ? ? ? ? ?| | |[] ? ? ? ?| |[] ?| | | | |[] ? ? ? ? ?|[] ? ?];
    simpl; unfold_routes; unfold_handler; unfold findByIdAndDelete, lookup in *;
    simpl; split_cases;
    try assumption;
    unfold likes_unique in *; simpl;
    repeat match goal with
           | |- Forall _ (_ ++ _) => apply Forall_app; split; [assumption|]
           | |- Forall _ [_] => constructor; [simpl|constructor]
           | |- Forall _ (remove_doc _ _ _) => apply Forall_remove_doc; assumption
           | |- Forall _ (replace_doc _ _ _) => apply Forall_replace_doc; [assumption|simpl]
           | |- NoDup [] => constructor
           | |- NoDup (filter _ _) => apply NoDup_filter
           | H : find_doc post_id (posts ?s) _ = Some ?p |- NoDup (likes ?p) =>
               apply find_doc_In in H;
               match goal with
               | Hall : Forall _ (posts s) |- _ =>
                   rewrite Forall_forall in Hall; exact (Hall p H)
               end
           | H : existsb (String.eqb ?u) ?l = false |- NoDup (?u :: ?l) =>
               constructor; [now apply existsb_eqb_not_In|]
           end.
Qed.

Lemma run_preserves_likes_unique (history : list Request) (st : Store) :
  likes_unique st -> likes_unique (run history st).
Proof.
  revert st. induction history as [|rq rest IH]; simpl; intros st Hinv; [assumption|].
  apply IH. now apply handle_preserves_likes_unique.
Qed.

(** C6: a new post has no likes, every handler keeps the likes of every
    post free of repetitions, and so they are in every store that a history
    of requests reaches from the empty one. *)
Theorem likes_unique_reachable :
  likes_unique empty_store
  /\ (forall user b newId now, NoDup (likes (new_post user b newId now)))
  /\ (forall rq st, likes_unique st -> likes_unique (snd (handle rq st)))
  /\ (forall history, likes_unique (run history empty_store))
  /\ (forall history postId post,
        find_doc post_id (posts (run history empty_store)) postId = Some post ->
        NoDup (likes post)).
Proof.
  assert (Hempty : likes_unique empty_store) by constructor.
  repeat split.
  - exact Hempty.
  - intros. simpl. constructor.
  - intros rq st. apply handle_preserves_likes_unique.
  - intros history. now apply run_preserves_likes_unique.
  - intros history postId post. apply likes_unique_found.
    now apply run_preserves_likes_unique.
Qed.

(** C5: in a store reached by a history of requests and on a well-formed
    post id, the unlike answers 404 when no post has the ObjectId of the id;
    on an existing post it answers 400 "Post has not yet been liked" exactly
    when the caller is not in the likes; when the caller is in the likes it
    answers 200, the stored post no longer has the caller in its likes and
    its likesCount is one less than before. *)
Theorem unlike_outcome (history : list Request) (user postId : string) :
  castObjectId postId = true ->
  (lookup post_id (posts (run history empty_store)) postId = None ->
   Post_Router_delete_like user postId (run history empty_store)
   = (send 404 (msg "Post not found"), run history empty_store))
  /\ forall post,
       lookup post_id (posts (run history empty_store)) postId = Some post ->
       (fst (Post_Router_delete_like user postId (run history empty_store))
        = send 400 (msg "Post has not yet been liked") <-> ~ In user (likes post))
       /\ (status (fst (Post_Router_delete_like user postId (run history empty_store)))
           = 400%Z <-> ~ In user (likes post))
       /\ (In user (likes post) ->
           fst (Post_Router_delete_like user postId (run history empty_store))
           = send 200 (ok_message "Post unliked")
           /\ exists post',
               lookup post_id
                 (posts (snd (Post_Router_delete_like user postId
                                (run history empty_store)))) postId = Some post'
               /\ likes post'
                  = filter (fun like => negb (String.eqb like user)) (likes post)
               /\ ~ In user (likes post')
               /\ likesCount post' = (likesCount post - 1)%Z).
Proof.
  intros Hcast. rewrite delete_like_eq, Hcast. split; [now intros ->|].
  intros post Hfind. rewrite Hfind.
  assert (Hnd : NoDup (likes post)).
  { apply likes_unique_found with (st := run history empty_store)
      (postId := stored_id post_id (posts (run history empty_store)) postId);
      [apply run_preserves_likes_unique; constructor|exact Hfind]. }
  rewrite (reachable_post_valid history postId post Hfind).
  destruct (existsb (String.eqb user) (likes post)) eqn:Hin.
  - apply existsb_eqb_In in Hin.
    split; [split; [discriminate|contradiction]|].
    split; [split; [discriminate|contradiction]|].
    intros _. split; [reflexivity|].
    eexists. split; [|split; [|split]].
    + simpl. now apply lookup_replace with (d := post).
    + reflexivity.
    + simpl. apply not_In_unliked.
    + unfold likesCount. simpl.
      rewrite <- (length_unliked user (likes post) Hnd Hin). lia.
  - apply existsb_eqb_not_In in Hin.
    split; [split; [auto|reflexivity]|]. split; [split; [auto|reflexivity]|].
    intros Hyes. contradiction.
Qed.

(** *** The paginated list *)




(** The list of the first revision (routes/posts.js) has no pagination: it
    ignores page and limit and sends every matching post. *)
Lemma unpaginated_list (q : ListQuery) (st : Store) :
  Post_Router_get q st =
    (send 200 (JObj [("posts",
                      JArr (map selected_post
                              (engine_sort (sort_of q) (filter (matches q) (posts st)))))]),
     st).
Proof. reflexivity. Qed.

(** The first revision of the comment route (routes/comments.js) stores the
    comment and leaves the posts as they are. *)
Lemma post_comments_keeps_posts (user postId : string) (comment : option string)
  (newId : string) (now : Z) (st : Store) :
  posts (snd (Comment_Router_post_comments user postId comment newId now st)) = posts st.
Proof.
  unfold Comment_Router_post_comments. unfold_handler. split_cases; reflexivity.
Qed.

End Properties.

(** ** The handlers on the concrete engine *)

(** C3, as stated, fails: on a post that does not exist the caller is not
    its owner, and the delete answers 404, which is not a Forbidden. *)
Lemma delete_absent_post_is_not_forbidden :
  ~ (forall (E : Engine) (st : Store) (user postId : string),
       owns st user postId = false ->
       is_forbidden (fst (Post_Router_delete_postId user postId st)) = true).
Proof.
  intros Hclaim.
  specialize (Hclaim demo_engine empty_store bob_id post1_id eq_refl).
  discriminate Hclaim.
Qed.

(** C7, as stated, fails: a creation without a title is answered with 500,
    not with a status of the 400 class. *)
Lemma create_without_title_is_internal :
  ~ (forall (E : Engine) (st : Store) (user : string) (b : PostBody) (newId : string)
       (now : Z),
       truthy (body_stockSymbol b) = false \/ truthy (body_title b) = false
       \/ truthy (body_description b) = false ->
       is_client_error (fst (Post_Router_post user b newId now st)) = true).
Proof.
  intros Hclaim.
  specialize (Hclaim demo_engine empty_store alice_id no_title post1_id 1%Z
                (or_intror (or_introl eq_refl))).
  discriminate Hclaim.
Qed.

Lemma register_echoes_password_hash_witness :
  status (fst (authRouter_post_register "alice" "a@x.com" "secret" demo_salt alice_id 1
                 empty_store)) = 201%Z
  /\ has_key "password"
       (body (fst (authRouter_post_register "alice" "a@x.com" "secret" demo_salt alice_id 1
                     empty_store))) = true
  /\ has_string "$2b$10$abcdefghijklmnopqrstuvsecret"
       (body (fst (authRouter_post_register "alice" "a@x.com" "secret" demo_salt alice_id 1
                     empty_store))) = true.
Proof.
  split; [reflexivity|].
  destruct (@register_echoes_password_hash demo_engine
              "alice" "a@x.com" "secret" demo_salt alice_id 1 empty_store eq_refl)
    as [Hkey [Hhash _]].
  split; [exact Hkey|exact Hhash].
Defined.

Lemma delete_by_non_owner_witness :
  castObjectId post1_upper = true
  /\ owns demo_store bob_id post1_id = false
  /\ Post_Router_delete_postId bob_id post1_upper demo_store
     = (send 401 (msg "User not authorized"), demo_store)
  /\ status (fst (Post_Router_get_postId post1_upper
                    (snd (Post_Router_delete_postId bob_id post1_upper demo_store))))
     = 200%Z
  /\ Comment_Router_delete_comment alice_id comment1_id demo_store
     = (send 401 (msg "User not authorized"), demo_store)
  /\ Post_Router_delete_postId bob_id comment1_id demo_store
     = (send 404 (msg "Post not found"), demo_store).
Proof.
  destruct (@delete_by_non_owner demo_engine "User not authorized" bob_id post1_upper
              demo_store eq_refl) as [Hpost _].
  destruct (Hpost _ eq_refl ltac:(discriminate)) as [Hdenied [_ Hstill]].
  destruct (@delete_by_non_owner demo_engine "User not authorized" alice_id comment1_id
              demo_store eq_refl) as [_ [_ [Hcomment _]]].
  destruct (Hcomment _ eq_refl ltac:(discriminate)) as [Hcdenied _].
  destruct (@delete_by_non_owner demo_engine "User not authorized" bob_id comment1_id
              demo_store eq_refl) as [_ [Habsent _]].
  split; [reflexivity|]. split; [reflexivity|]. split; [exact Hdenied|].
  split; [now rewrite Hstill|]. split; [exact Hcdenied|exact (Habsent eq_refl)].
Defined.

Lemma like_outcome_witness :
  castObjectId post1_upper = true
  /\ Post_Router_post_like bob_id post1_upper demo_store
     = (send 400 (msg "Post already liked"), demo_store)
  /\ fst (Post_Router_post_like alice_id post1_upper demo_store)
     = send 200 (ok_message "Post liked")
  /\ option_map likes
       (lookup post_id (posts (snd (Post_Router_post_like alice_id post1_upper demo_store)))
          post1_upper) = Some [alice_id; bob_id]
  /\ status (fst (Post_Router_post_like alice_id post2_id demo_store)) = 404%Z.
Proof.
  destruct (@like_outcome demo_engine bob_id post1_upper demo_store eq_refl)
    as [_ [Hbob _]].
  destruct (Hbob _ eq_refl) as [_ [Hagain _]].
  destruct (@like_outcome demo_engine alice_id post1_upper demo_store eq_refl)
    as [_ [Halice Hreached]].
  destruct (Halice _ eq_refl) as [_ [_ Hnew]].
  assert (Hnotin : ~ In alice_id [bob_id]).
  { intros [Heq|[]]. discriminate Heq. }
  destruct (Hnew Hnotin (Hreached demo_history _ eq_refl eq_refl)) as [Hok [Hstored _]].
  destruct (@like_outcome demo_engine alice_id post2_id demo_store eq_refl)
    as [[_ Habsent] _].
  split; [reflexivity|]. split; [apply Hagain; now left|].
  split; [exact Hok|]. split; [now rewrite Hstored|exact (Habsent eq_refl)].
Defined.

Lemma unlike_outcome_witness :
  castObjectId post1_upper = true
  /\ fst (Post_Router_delete_like bob_id post1_upper (run demo_history empty_store))
     = send 200 (ok_message "Post unliked")
  /\ status (fst (Post_Router_delete_like alice_id post1_upper
                    (run demo_history empty_store))) = 400%Z
  /\ exists post',
       lookup post_id
         (posts (snd (Post_Router_delete_like bob_id post1_upper
                        (run demo_history empty_store)))) post1_upper = Some post'
       /\ likesCount post' = 0%Z.
Proof.
  destruct (@unlike_outcome demo_engine demo_history bob_id post1_upper eq_refl)
    as [_ Hbob].
  destruct (Hbob _ eq_refl) as [_ [_ Hliked]].
  destruct (Hliked (or_introl eq_refl)) as [Hok [post' [Hstored [_ [_ Hcount]]]]].
  destruct (@unlike_outcome demo_engine demo_history alice_id post1_upper eq_refl)
    as [_ Halice].
  destruct (Halice _ eq_refl) as [_ [Hnot _]].
  split; [reflexivity|]. split; [exact Hok|]. split.
  - apply Hnot. intros [Heq|[]]. discriminate Heq.
  - exists post'. split; [exact Hstored|exact Hcount].
Defined.

Lemma create_post_outcome_witness :
  status (fst (Post_Router_post alice_id no_title post1_id 1 empty_store)) = 500%Z
  /\ snd (Post_Router_post alice_id no_title post1_id 1 empty_store) = empty_store
  /\ status (fst (Post_Router_post alice_id aapl post1_id 1 empty_store)) = 200%Z
  /\ posts (snd (Post_Router_post alice_id aapl post1_id 1 empty_store))
     = [mkPost post1_id alice_id "AAPL" "t" "d" [] [] [] 1 0].
Proof.
  destruct (@create_post_outcome demo_engine alice_id no_title post1_id 1 empty_store)
    as [Hinvalid _].
  destruct (Hinvalid (or_intror (or_introl eq_refl))) as [Hanswer Hstatus].
  destruct (@create_post_outcome demo_engine alice_id aapl post1_id 1 empty_store)
    as [_ Hvalid].
  destruct (Hvalid eq_refl eq_refl eq_refl eq_refl) as [Hok [Hstored _]].
  split; [exact Hstatus|]. split; [now rewrite Hanswer|].
  split; [exact Hok|exact Hstored].
Defined.


Lemma comment_add_outcome_witness :
  castObjectId post1_upper = true
  /\ fst (Comment_Router_post_comments_part_002 alice_id post1_upper (Some "thanks")
            comment2_id 5 demo_store)
     = send 200 (JObj [("success", JBool true); ("commentId", JStr comment2_id);
                       ("message", JStr "Comment added successfully")])
  /\ option_map comments
       (lookup post_id
          (posts (snd (Comment_Router_post_comments_part_002 alice_id post1_upper
                         (Some "thanks") comment2_id 5 demo_store))) post1_upper)
     = Some [comment1_id; comment2_id]
  /\ commentDocs (snd (Comment_Router_post_comments_part_002 alice_id post1_upper
                         (Some "thanks") comment2_id 5 demo_store))
     = commentDocs demo_store ++ [mkComment comment2_id alice_id post1_id "thanks" 5]
  /\ status (fst (Comment_Router_post_comments_part_002 alice_id comment1_id
                    (Some "thanks") comment2_id 5 demo_store)) = 404%Z.
Proof.
  destruct (@comment_add_outcome demo_engine alice_id post1_upper (Some "thanks")
              comment2_id 5 demo_store eq_refl) as [_ [Hdone [Hsuccess Hreached]]].
  pose proof (Hsuccess _ eq_refl eq_refl eq_refl
                (Hreached demo_history _ eq_refl eq_refl)) as Hok.
  destruct (Hdone ltac:(now rewrite Hok)) as [post [Hfound [Hdocs [Hstored _]]]].
  injection Hfound as <-.
  destruct (@comment_add_outcome demo_engine alice_id comment1_id (Some "thanks")
              comment2_id 5 demo_store eq_refl) as [[_ Habsent] _].
  split; [reflexivity|]. split; [exact Hok|].
  split; [now rewrite Hstored|]. split; [exact Hdocs|exact (Habsent eq_refl)].
Defined.


(** ** More on the collections *)

Section MoreCollections.

Context {A : Type} (idof : A -> string).

Lemma find_doc_None (coll : list A) (id : string) :
  find_doc idof coll id = None <-> ~ In id (map idof coll).
Proof.
  unfold find_doc. induction coll as [|x rest IH]; simpl; [tauto|].
  destruct (String.eqb_spec (idof x) id) as [Heq|Hneq].
  - split; [discriminate|]. intros Hnot. exfalso. apply Hnot. now left.
  - rewrite IH. tauto.
Qed.

Lemma find_doc_app (coll : list A) (d : A) (id : string) :
  find_doc idof (coll ++ [d]) id =
    match find_doc idof coll id with
    | Some x => Some x
    | None => if String.eqb (idof d) id then Some d else None
    end.
Proof.
  unfold find_doc. induction coll as [|x rest IH]; simpl; [reflexivity|].
  now destruct (String.eqb (idof x) id).
Qed.

Lemma map_id_replace_doc (coll : list A) (d : A) :
  map idof (replace_doc idof coll d) = map idof coll.
Proof.
  induction coll as [|x rest IH]; simpl; [reflexivity|].
  destruct (String.eqb_spec (idof x) (idof d)) as [Heq|Hneq]; simpl; congruence.
Qed.

Lemma find_replace_other (coll : list A) (d : A) (id : string) :
  idof d <> id ->
  find_doc idof (replace_doc idof coll d) id = find_doc idof coll id.
Proof.
  unfold find_doc. intros Hother. induction coll as [|x rest IH]; simpl; [reflexivity|].
  destruct (String.eqb_spec (idof x) (idof d)) as [Heq|Hneq]; simpl.
  - apply String.eqb_neq in Hother. rewrite Hother.
    rewrite Heq, Hother. reflexivity.
  - now rewrite IH.
Qed.

(** Overwriting a document and then writing the original back restores the
    collection. *)
Lemma replace_replace (coll : list A) (d d' : A) :
  find_doc idof coll (idof d) = Some d -> idof d' = idof d ->
  replace_doc idof (replace_doc idof coll d') d = coll.
Proof.
  unfold find_doc. intros Hfind Hid.
  induction coll as [|x rest IH]; simpl in *; [reflexivity|].
  rewrite Hid. destruct (String.eqb (idof x) (idof d)) eqn:Hx; simpl.
  - injection Hfind as ->. now rewrite Hid, String.eqb_refl.
  - rewrite Hx. f_equal. now apply IH.
Qed.

Lemma map_replace_same {B} (f : A -> B) (coll : list A) (d d' : A) :
  find_doc idof coll (idof d') = Some d -> f d' = f d ->
  map f (replace_doc idof coll d') = map f coll.
Proof.
  unfold find_doc. intros Hfind Hf.
  induction coll as [|x rest IH]; simpl in *; [reflexivity|].
  destruct (String.eqb (idof x) (idof d')) eqn:Hx; simpl.
  - injection Hfind as ->. now rewrite Hf.
  - f_equal. now apply IH.
Qed.

Lemma In_replace_doc (coll : list A) (d y : A) :
  In y (replace_doc idof coll d) -> In y coll \/ y = d.
Proof.
  induction coll as [|x rest IH]; simpl; [tauto|].
  destruct (String.eqb (idof x) (idof d)); simpl; intros [Heq|Hin]; auto.
  destruct (IH Hin); auto.
Qed.

Lemma NoDup_map_replace {B} (f : A -> B) (coll : list A) (d : A) :
  NoDup (map idof coll) -> NoDup (map f coll) ->
  (forall o, In o coll -> idof o <> idof d -> f o <> f d) ->
  NoDup (map f (replace_doc idof coll d)).
Proof.
  induction coll as [|x rest IH]; simpl; intros Hids Hf Hother; [constructor|].
  inversion Hids as [|? ? Hxid Hrestid]; subst.
  inversion Hf as [|? ? Hxf Hrestf]; subst.
  destruct (String.eqb_spec (idof x) (idof d)) as [Heq|Hneq]; simpl.
  - constructor; [|assumption].
    intros Hin. apply in_map_iff in Hin. destruct Hin as [o [Hfo Ho]].
    apply (Hother o); [now right| |assumption].
    intros Hsame. apply Hxid. rewrite Heq, <- Hsame. now apply in_map.
  - constructor.
    + intros Hin. apply in_map_iff in Hin. destruct Hin as [o [Hfo Ho]].
      apply In_replace_doc in Ho. destruct Ho as [Ho| ->].
      * apply Hxf. rewrite <- Hfo. now apply in_map.
      * apply (Hother x); [now left|assumption|now symmetry].
    + apply IH; auto.
Qed.

Lemma In_remove_doc (coll : list A) (id : string) (y : A) :
  In y (remove_doc idof coll id) -> In y coll.
Proof.
  induction coll as [|x rest IH]; simpl; [tauto|].
  destruct (String.eqb (idof x) id); simpl; [now right|].
  intros [Heq|Hin]; auto.
Qed.

Lemma NoDup_map_remove {B} (f : A -> B) (coll : list A) (id : string) :
  NoDup (map f coll) -> NoDup (map f (remove_doc idof coll id)).
Proof.
  induction coll as [|x rest IH]; simpl; intros Hf; [constructor|].
  inversion Hf as [|? ? Hx Hrest]; subst.
  destruct (String.eqb (idof x) id); simpl; [assumption|].
  constructor; [|now apply IH].
  intros Hin. apply in_map_iff in Hin. destruct Hin as [o [Hfo Ho]].
  apply Hx. rewrite <- Hfo. apply in_map. now apply In_remove_doc in Ho.
Qed.



Lemma NoDup_map_app_one {B} (f : A -> B) (coll : list A) (d : A) :
  NoDup (map f coll) -> ~ In (f d) (map f coll) -> NoDup (map f (coll ++ [d])).
Proof.
  intros Hf Hnew. rewrite map_app. simpl.
  apply NoDup_app; [assumption|constructor; [intros []|constructor]|].
  intros y Hy [Heq|[]]. subst y. contradiction.
Qed.

Lemma existsb_field_false (f : A -> string) (coll : list A) (v : string) :
  existsb (fun o => String.eqb (f o) v) coll = false -> ~ In v (map f coll).
Proof.
  intros Hnone Hin. apply in_map_iff in Hin. destruct Hin as [o [Hfo Ho]].
  assert (Hsome : existsb (fun o => String.eqb (f o) v) coll = true).
  { apply existsb_exists. exists o. split; [assumption|]. now apply String.eqb_eq. }
  congruence.
Qed.

End MoreCollections.

Ltac open_monad :=
  unfold try_catch, bind, ret, reply, raise, gets, modify, return_if,
    findById, save_post, insert_post, insert_comment, insert_user,
    findOne_by_email, findByIdAndUpdate_user, server_error, registration_failed,
    comment_added, send in *.

Ltac open_routes :=
  unfold authRouter_post_register, authRouter_post_register_part_004,
    authRouter_post_login, userRouter_get_profile, userRouter_put_profile,
    userRouter_put_profile_part_001, Post_Router_post, Post_Router_get,
    Post_Router_get_paged, Post_Router_get_postId, Post_Router_delete_postId,
    Post_Router_post_like, Post_Router_delete_like, Comment_Router_post_comments,
    Comment_Router_post_comments_part_002, Comment_Router_delete_comment,
    Comment_Router_delete_comment_part_002, Comment_Router_delete_with.

Ltac plain_scrutinee x :=
  lazymatch x with
  | context [match _ with _ => _ end] => fail
  | _ => idtac
  end.

Ltac case_split :=
  repeat match goal with
         | |- context [match ?x with _ => _ end] =>
             plain_scrutinee x; destruct x eqn:?; simpl in *
         end.

Ltac by_cases_on rq :=
  destruct rq as [[] ? ? ? ? ? ?| | |[] ? ? ? ?| |[] ?| | | | |[] ? ? ? ? ?|[] ? ?];
  simpl; open_routes; open_monad; unfold findByIdAndDelete, lookup in *;
  simpl; case_split.

Section MoreProperties.

Context `{E : Engine}.

(** *** What no request does *)

(** X3: a request that is answered with a status from 400 on has written
    nothing, in every handler but the later comment route: there the error
    replies and the throws come before the first write.  The later comment
    route saves the post after it has written the comment; it also writes
    nothing on a failure when every stored post passes the validation of a
    save, and otherwise a post that fails it leaves the comment written
    under a 500. *)
Theorem failed_request_keeps_store (rq : Request) (st : Store) :
  (saves_after_write rq = false \/ posts_valid st ->
   (400 <= status (fst (handle rq st)))%Z -> snd (handle rq st) = st)
  /\ (forall user postId comment newId now post,
        rq = AddComment true user postId comment newId now ->
        castObjectId postId = true ->
        lookup post_id (posts st) postId = Some post ->
        truthy comment = true ->
        find_doc comment_id (commentDocs st) newId = None ->
        post_paths post <> [] ->
        status (fst (handle rq st)) = 500%Z
        /\ snd (handle rq st)
           = set_commentDocs
               (fun l => l ++ [new_comment user (post_id post) comment newId now]) st).
Proof.
  split.
  - intros Hcase.
    destruct (saves_after_write rq) eqn:Hlater.
    + destruct Hcase as [Hno|Hvalid]; [discriminate|].
      destruct rq as [[] ? ? ? ? ? ?| | |[] ? ? ? ?| |[] ?| | | | |[] ? ? ? ? ?|[] ? ?];
        try discriminate.
      simpl. rewrite post_comments_part_002_eq.
      destruct (castObjectId postId); [|reflexivity].
      destruct (lookup post_id (posts st) postId) as [post|] eqn:Hfound; [|reflexivity].
      destruct (truthy comment); [|reflexivity].
      destruct (find_doc comment_id (commentDocs st) newId); [reflexivity|].
      assert (Hpost : post_paths post = []).
      { apply lookup_In in Hfound. unfold posts_valid in Hvalid.
        rewrite Forall_forall in Hvalid. now apply Hvalid. }
      rewrite Hpost. simpl. intros Hfailed. lia.
    + clear Hcase. revert Hlater.
      by_cases_on rq; intros Hlater Hfailed; try reflexivity; try discriminate; lia.
  - intros user postId comment newId now post -> Hcast Hfound Hcomment Hfresh Hinvalid.
    simpl. rewrite post_comments_part_002_eq, Hcast, Hfound, Hcomment, Hfresh.
    destruct (post_paths post); [contradiction|]. now split.
Qed.

(** X4: login, the profile lookup, both lists and the single post never
    write, whatever they answer. *)
Theorem reads_keep_store (rq : Request) (st : Store) :
  reads_only rq = true -> snd (handle rq st) = st.
Proof.
  by_cases_on rq; intros Hreads; try reflexivity; discriminate.
Qed.

(** X5: the registration and the profile update leave posts and comments as
    they are, and no request of the post and comment routes changes a user
    document. *)
Theorem collections_are_separate (rq : Request) (st : Store) :
  (on_users rq = true ->
     posts (snd (handle rq st)) = posts st
     /\ commentDocs (snd (handle rq st)) = commentDocs st)
  /\ (on_users rq = false -> users (snd (handle rq st)) = users st).
Proof.
  by_cases_on rq; split; intros Hclass; try discriminate; auto.
Qed.

(** *** Unique ids, emails and user names *)

Lemma is_some_find_false {A} (idof : A -> string) (coll : list A) (id : string) :
  is_some (find_doc idof coll id) = false -> ~ In id (map idof coll).
Proof.
  intros Hnone. apply find_doc_None. now destruct (find_doc idof coll id).
Qed.

Lemma update_keeps_usernames (all : list User) (u : User) (id uname about picture : string) :
  NoDup (map user_id all) -> NoDup (map username all) ->
  find_doc user_id all id = Some u ->
  existsb (fun o => negb (String.eqb (user_id o) id) && String.eqb (username o) uname) all
  = false ->
  NoDup (map username
           (replace_doc user_id all
              (mkUser (user_id u) uname (email u) (password u) about picture
                 (user_createdAt u)))).
Proof.
  intros Hids Hnames Hfind Hfree.
  assert (Hid : user_id u = id) by now apply find_doc_id with (coll := all).
  apply NoDup_map_replace; try assumption.
  simpl. intros o Ho Hother Hsame.
  assert (Hsome : existsb (fun o => negb (String.eqb (user_id o) id)
                                    && String.eqb (username o) uname) all = true).
  { apply existsb_exists. exists o. split; [assumption|].
    rewrite Hid in Hother. apply String.eqb_neq in Hother. rewrite Hother. simpl.
    now apply String.eqb_eq. }
  congruence.
Qed.

Lemma handle_preserves_store_wf (rq : Request) (st : Store) :
  store_wf st -> store_wf (snd (handle rq st)).
Proof.
  intros [Huid [Hmail [Hname [Hpid Hcid]]]].
  by_cases_on rq; unfold store_wf; simpl;
    repeat split; try assumption;
    repeat match goal with
           | |- NoDup (map _ (remove_doc _ _ _)) => apply NoDup_map_remove; assumption
           | |- NoDup (map post_id (replace_doc post_id _ _)) =>
               rewrite map_id_replace_doc; assumption
           | |- NoDup (map user_id (replace_doc user_id _ _)) =>
               rewrite map_id_replace_doc; assumption
           | H : find_doc user_id (users st) _ = Some ?u
             |- NoDup (map email (replace_doc user_id _ _)) =>
               rewrite (map_replace_same user_id email (users st) u); try assumption;
               try reflexivity; simpl;
               rewrite (find_doc_id user_id _ _ _ H); exact H
           | H : find_doc user_id (users st) _ = Some ?u
             |- NoDup (map username (replace_doc user_id _ _)) =>
               eapply update_keeps_usernames; eassumption
           | |- NoDup (map _ (_ ++ [_])) => apply NoDup_map_app_one; [assumption|simpl]
           | H : find_doc ?idof ?coll ?id = None |- ~ In ?id (map ?idof ?coll) =>
               now apply find_doc_None
           | H : is_some (find_doc ?idof ?coll ?id) = false |- ~ In ?id (map ?idof ?coll) =>
               now apply is_some_find_false
           | H : existsb (fun o => String.eqb (?f o) ?v) ?coll = false
             |- ~ In ?v (map ?f ?coll) => now apply existsb_field_false
           end.
Qed.

Lemma run_preserves_store_wf (history : list Request) (st : Store) :
  store_wf st -> store_wf (run history st).
Proof.
  revert st. induction history as [|rq rest IH]; simpl; intros st Hwf; [assumption|].
  apply IH. now apply handle_preserves_store_wf.
Qed.

Lemma empty_store_wf : store_wf empty_store.
Proof. repeat split; constructor. Qed.

(** X6: every handler keeps the ids of the users, of the posts and of the
    comments, the emails and the user names free of repetitions; they are so
    in every store that a history of requests reaches from the empty one. *)
Theorem store_wf_reachable :
  (forall rq st, store_wf st -> store_wf (snd (handle rq st)))
  /\ (forall history, store_wf (run history empty_store)).
Proof.
  split.
  - intros rq st. apply handle_preserves_store_wf.
  - intros history. apply run_preserves_store_wf, empty_store_wf.
Qed.

(** *** Registration and login *)

Lemma truthy_Some (s : string) : truthy (Some s) = true <-> s <> "".
Proof.
  simpl. destruct (String.eqb_spec s ""); simpl; split; congruence.
Qed.

Lemma user_paths_valid (uname mail hash : string) :
  required "username" (Some uname) ++ required "email" (Some mail)
  ++ required "password" (Some hash) = [] <->
  uname <> "" /\ mail <> "" /\ hash <> "".
Proof.
  unfold required. rewrite <- !truthy_Some.
  destruct (truthy (Some uname)), (truthy (Some mail)), (truthy (Some hash)); simpl;
    split; intros H; try discriminate; try tauto;
    destruct H as [? [? ?]]; discriminate.
Qed.

Lemma find_email_None (all : list User) (mail : string) :
  find (fun u => String.eqb (email u) mail) all = None <-> ~ In mail (map email all).
Proof. apply (find_doc_None email). Qed.

Lemma existsb_field_true {A} (f : A -> string) (coll : list A) (v : string) :
  existsb (fun o => String.eqb (f o) v) coll = true <-> In v (map f coll).
Proof.
  rewrite existsb_exists, in_map_iff. split; intros [o [H1 H2]]; exists o.
  - apply String.eqb_eq in H2. now split.
  - split; [assumption|now apply String.eqb_eq].
Qed.

(** X7: the later registration answers 400 and writes nothing when the
    email is registered already; for a new email it answers 200 exactly when
    user name, email and hash are non-empty and the generated id and the user
    name are not in use, and then the store has gained one user, whose
    password is the bcrypt hash; every other case is a 500 that writes
    nothing.  The first revision writes the same. *)
Theorem register_outcome (uname mail pass salt newId : string) (now : Z) (st : Store) :
  (In mail (map email (users st)) ->
   authRouter_post_register_part_004 uname mail pass salt newId now st
   = (send 400 (msg "User already exists, Please Login"), st))
  /\ (~ In mail (map email (users st)) ->
      (status (fst (authRouter_post_register_part_004 uname mail pass salt newId now st))
       = 200%Z
       <-> uname <> "" /\ mail <> "" /\ bcrypt_hash pass salt <> ""
           /\ ~ In newId (map user_id (users st))
           /\ ~ In uname (map username (users st)))
      /\ (status (fst (authRouter_post_register_part_004 uname mail pass salt newId now st))
          = 200%Z ->
          authRouter_post_register_part_004 uname mail pass salt newId now st
          = (send 200 (JObj [("success", JBool true);
                             ("message", JStr "User registered successfully");
                             ("userId", JStr newId)]),
             set_users (fun l => l ++ [mkUser newId uname mail (bcrypt_hash pass salt)
                                         "" "" now]) st))
      /\ (status (fst (authRouter_post_register_part_004 uname mail pass salt newId now st))
          <> 200%Z ->
          authRouter_post_register_part_004 uname mail pass salt newId now st
          = (send 500 (JObj [("success", JBool false);
                             ("message", JStr "Error registering user")]), st)))
  /\ snd (authRouter_post_register uname mail pass salt newId now st)
     = snd (authRouter_post_register_part_004 uname mail pass salt newId now st).
Proof.
  unfold authRouter_post_register, authRouter_post_register_part_004. open_monad. simpl.
  split; [|split].
  - intros Hknown.
    destruct (find (fun u => String.eqb (email u) mail) (users st)) eqn:Hfind;
      [reflexivity|].
    apply find_email_None in Hfind. contradiction.
  - intros Hnew. apply find_email_None in Hnew. rewrite Hnew. simpl.
    destruct (required "username" (Some uname) ++ required "email" (Some mail)
              ++ required "password" (Some (bcrypt_hash pass salt))) eqn:Hpaths.
    + apply user_paths_valid in Hpaths.
      destruct (is_some (find_doc user_id (users st) newId)) eqn:Hid; simpl.
      * assert (Hused : In newId (map user_id (users st))).
        { destruct (find_doc user_id (users st) newId) eqn:Hf; [|discriminate].
          rewrite <- (find_doc_id user_id _ _ _ Hf) at 1.
          apply in_map. now apply find_doc_In in Hf. }
        repeat split; try discriminate; tauto.
      * apply is_some_find_false in Hid.
        destruct (existsb (fun o => String.eqb (username o) uname) (users st)) eqn:Hname;
          simpl.
        -- apply existsb_field_true in Hname. repeat split; try discriminate; tauto.
        -- apply existsb_field_false in Hname.
           destruct (existsb (fun o => String.eqb (email o) mail) (users st)) eqn:Hmail;
             simpl.
           ++ apply existsb_field_true in Hmail. apply find_email_None in Hnew.
              contradiction.
           ++ repeat split; tauto.
    + assert (Hinvalid : ~ (uname <> "" /\ mail <> "" /\ bcrypt_hash pass salt <> "")).
      { intros Hvalid. apply user_paths_valid in Hvalid. congruence. }
      simpl. repeat split; try discriminate; tauto.
  - repeat match goal with
           | |- context [match ?x with _ => _ end] =>
               plain_scrutinee x; destruct x; simpl
           end; reflexivity.
Qed.

(** X8: the login writes nothing; it answers 404 exactly when no user has
    the email; for the user with that email it answers 400 exactly when
    bcrypt rejects the password against the stored hash, and otherwise 200
    with a token signed for that user's id and the id, user name and email
    only. *)
Theorem login_outcome (mail pass : string) (st : Store) :
  snd (authRouter_post_login mail pass st) = st
  /\ (status (fst (authRouter_post_login mail pass st)) = 404%Z
      <-> ~ In mail (map email (users st)))
  /\ forall user, find (fun u => String.eqb (email u) mail) (users st) = Some user ->
       (status (fst (authRouter_post_login mail pass st)) = 400%Z
        <-> bcrypt_compare pass (password user) = false)
       /\ (bcrypt_compare pass (password user) = true ->
           fst (authRouter_post_login mail pass st)
           = send 200 (JObj [("token", JStr (jwt_sign (user_id user)));
                             ("user", JObj [("id", JStr (user_id user));
                                            ("username", JStr (username user));
                                            ("email", JStr (email user))])])).
Proof.
  unfold authRouter_post_login. open_monad. simpl.
  destruct (find (fun u => String.eqb (email u) mail) (users st)) as [user|] eqn:Hfind;
    simpl.
  - assert (Hknown : In mail (map email (users st))).
    { apply find_some in Hfind. destruct Hfind as [Hin Heq].
      apply String.eqb_eq in Heq. rewrite <- Heq. now apply in_map. }
    destruct (bcrypt_compare pass (password user)) eqn:Hmatch; simpl.
    + split; [reflexivity|]. split; [split; [discriminate|tauto]|].
      intros u Hu. injection Hu as <-. rewrite Hmatch.
      split; [split; discriminate|reflexivity].
    + split; [reflexivity|]. split; [split; [discriminate|tauto]|].
      intros u Hu. injection Hu as <-. rewrite Hmatch.
      split; [split; reflexivity|discriminate].
  - apply find_email_None in Hfind. repeat split; try discriminate; tauto.
Qed.

(** X9: after a registration that succeeded, in either revision, a login
    with the same email and password is answered with 200, a token for the
    new id and the new user's id, name and email, provided bcrypt accepts a
    password against its own hash. *)
Theorem register_then_login (later : bool) (uname mail pass salt newId : string) (now : Z)
  (st : Store) :
  bcrypt_compare pass (bcrypt_hash pass salt) = true ->
  (status (fst (handle (Register later uname mail pass salt newId now) st)) < 400)%Z ->
  fst (authRouter_post_login mail pass
         (snd (handle (Register later uname mail pass salt newId now) st)))
  = send 200 (JObj [("token", JStr (jwt_sign newId));
                    ("user", JObj [("id", JStr newId); ("username", JStr uname);
                                   ("email", JStr mail)])]).
Proof.
  intros Hbcrypt.
  destruct later; simpl;
    unfold authRouter_post_register, authRouter_post_register_part_004,
      authRouter_post_login; open_monad; simpl;
    destruct (find (fun u => String.eqb (email u) mail) (users st)) eqn:Hfind; simpl;
    try (intros Hok; lia);
    destruct (required "username" (Some uname) ++ required "email" (Some mail)
              ++ required "password" (Some (bcrypt_hash pass salt))); simpl;
    try (intros Hok; lia);
    destruct (is_some (find_doc user_id (users st) newId)); simpl;
    try (intros Hok; lia);
    destruct (existsb (fun o => String.eqb (username o) uname) (users st)); simpl;
    try (intros Hok; lia);
    destruct (existsb (fun o => String.eqb (email o) mail) (users st)); simpl;
    try (intros Hok; lia);
    intros _;
    change (find (fun u => String.eqb (email u) mail)
              (users st ++ [mkUser newId uname mail (bcrypt_hash pass salt) "" "" now]))
      with (find_doc email
              (users st ++ [mkUser newId uname mail (bcrypt_hash pass salt) "" "" now]) mail);
    rewrite find_doc_app; unfold find_doc; rewrite Hfind; simpl;
    rewrite String.eqb_refl; simpl; rewrite Hbcrypt; reflexivity.
Qed.

(** *** The profile update *)

(** X10: the later profile update answers 404 and writes nothing when the
    caller resolves to no user (the first revision answers 200 there, also
    without a write); when another user has the requested name it answers
    500 and writes nothing; otherwise it answers 200 and the caller's
    document has the new name, bio and picture with its id, email, password
    and creation time as before, every other user being as before. *)
Theorem put_profile_outcome (user uname about picture : string) (st : Store) :
  (find_doc user_id (users st) user = None ->
   userRouter_put_profile_part_001 user uname about picture st
   = (send 404 (msg "User not found"), st)
   /\ userRouter_put_profile user uname about picture st
      = (send 200 (ok_message "Profile updated"), st))
  /\ forall u, find_doc user_id (users st) user = Some u ->
       ((exists o, In o (users st) /\ user_id o <> user /\ username o = uname) ->
        userRouter_put_profile_part_001 user uname about picture st
        = (send 500 (JObj [("message", JStr "Error updating profile")]), st))
       /\ ((forall o, In o (users st) -> user_id o <> user -> username o <> uname) ->
           fst (userRouter_put_profile_part_001 user uname about picture st)
           = send 200 (ok_message "Profile updated")
           /\ find_doc user_id
                (users (snd (userRouter_put_profile_part_001 user uname about picture st)))
                user
              = Some (mkUser (user_id u) uname (email u) (password u) about picture
                        (user_createdAt u))
           /\ (forall other, other <> user ->
               find_doc user_id
                 (users (snd (userRouter_put_profile_part_001 user uname about picture st)))
                 other
               = find_doc user_id (users st) other)
           /\ snd (userRouter_put_profile user uname about picture st)
              = snd (userRouter_put_profile_part_001 user uname about picture st)).
Proof.
  unfold userRouter_put_profile_part_001, userRouter_put_profile. open_monad. simpl.
  split.
  - intros Hnone. now rewrite Hnone.
  - intros u Hfind. rewrite Hfind.
    assert (Hid : user_id u = user) by now apply find_doc_id with (coll := users st).
    destruct (existsb (fun o => negb (String.eqb (user_id o) user)
                                && String.eqb (username o) uname) (users st)) eqn:Htaken;
      simpl.
    + apply existsb_exists in Htaken. destruct Htaken as [o [Ho Hboth]].
      apply andb_true_iff in Hboth. destruct Hboth as [Hother Hsame].
      apply negb_true_iff, String.eqb_neq in Hother. apply String.eqb_eq in Hsame.
      split; [reflexivity|]. intros Hfree. exfalso. now apply (Hfree o).
    + split.
      * intros [o [Ho [Hother Hsame]]].
        assert (Hsome : existsb (fun o => negb (String.eqb (user_id o) user)
                                          && String.eqb (username o) uname) (users st)
                        = true).
        { apply existsb_exists. exists o. split; [assumption|].
          apply String.eqb_neq in Hother. rewrite Hother. simpl.
          now apply String.eqb_eq. }
        congruence.
      * intros _. split; [reflexivity|]. split; [|split; [|reflexivity]].
        -- now apply find_replace_doc with (d := u).
        -- intros other Hother. apply find_replace_other. simpl. congruence.
Qed.

(** *** Deleting as the owner *)





(** *** Likes, composed *)

Lemma set_likes_same (p : Post) : set_likes p (likes p) = p.
Proof. now destruct p. Qed.

Lemma unliked_fresh (user : string) (l : list string) :
  ~ In user l -> filter (fun like => negb (String.eqb like user)) l = l.
Proof.
  induction l as [|x rest IH]; simpl; intros Hnot; [reflexivity|].
  destruct (String.eqb_spec x user) as [Heq|Hneq]; simpl.
  - exfalso. apply Hnot. now left.
  - f_equal. apply IH. intros Hin. apply Hnot. now right.
Qed.

Lemma replace_twice {A} (idof : A -> string) (coll : list A) (d d' : A) :
  idof d' = idof d ->
  replace_doc idof (replace_doc idof coll d') d = replace_doc idof coll d.
Proof.
  intros Hid. induction coll as [|x rest IH]; simpl; [reflexivity|].
  rewrite Hid. destruct (String.eqb (idof x) (idof d)) eqn:Hx; simpl.
  - now rewrite Hid, String.eqb_refl.
  - rewrite Hx. now f_equal.
Qed.

(** What a like by a user outside the likes, on a post that passes the
    validation of its save, does. *)
Lemma like_succeeds (user postId : string) (st : Store) (post : Post) :
  castObjectId postId = true -> lookup post_id (posts st) postId = Some post ->
  ~ In user (likes post) -> post_paths post = [] ->
  Post_Router_post_like user postId st
  = (send 200 (ok_message "Post liked"),
     set_posts (fun l => replace_doc post_id l
                           (bump (set_likes post (user :: likes post)))) st).
Proof.
  intros Hcast Hfound Hnot Hvalid. apply existsb_eqb_not_In in Hnot.
  now rewrite post_like_eq, Hcast, Hfound, Hnot, Hvalid.
Qed.

Lemma unlike_succeeds (user postId : string) (st : Store) (post : Post) :
  castObjectId postId = true -> lookup post_id (posts st) postId = Some post ->
  In user (likes post) -> post_paths post = [] ->
  Post_Router_delete_like user postId st
  = (send 200 (ok_message "Post unliked"),
     set_posts (fun l => replace_doc post_id l
       (bump (set_likes post
                (filter (fun like => negb (String.eqb like user)) (likes post))))) st).
Proof.
  intros Hcast Hfound Hin Hvalid. apply existsb_eqb_In in Hin.
  now rewrite delete_like_eq, Hcast, Hfound, Hin, Hvalid.
Qed.

Lemma like_succeeded (user postId : string) (st : Store) :
  status (fst (Post_Router_post_like user postId st)) = 200%Z ->
  castObjectId postId = true
  /\ exists post, lookup post_id (posts st) postId = Some post
                  /\ ~ In user (likes post) /\ post_paths post = [].
Proof.
  rewrite post_like_eq.
  destruct (castObjectId postId); [|discriminate].
  destruct (lookup post_id (posts st) postId) as [post|]; [|discriminate].
  destruct (existsb (String.eqb user) (likes post)) eqn:Hin; [discriminate|].
  destruct (post_paths post) eqn:Hvalid; [|discriminate].
  intros _. split; [reflexivity|]. exists post.
  split; [reflexivity|]. split; [now apply existsb_eqb_not_In|assumption].
Qed.

Lemma unlike_succeeded (user postId : string) (st : Store) :
  status (fst (Post_Router_delete_like user postId st)) = 200%Z ->
  castObjectId postId = true
  /\ exists post, lookup post_id (posts st) postId = Some post
                  /\ In user (likes post) /\ post_paths post = [].
Proof.
  rewrite delete_like_eq.
  destruct (castObjectId postId); [|discriminate].
  destruct (lookup post_id (posts st) postId) as [post|]; [|discriminate].
  destruct (existsb (String.eqb user) (likes post)) eqn:Hin; [|discriminate].
  destruct (post_paths post) eqn:Hvalid; [|discriminate].
  intros _. split; [reflexivity|]. exists post.
  split; [reflexivity|]. split; [now apply existsb_eqb_In|assumption].
Qed.

(** X13: a like by a user who has not liked the post, followed by that
    user's unlike, gives two 200 answers and the store it started from but
    for the version key of the post, which the two saves have incremented
    twice; the likes and every other path of the post are as before. *)
Theorem like_then_unlike (user postId : string) (st : Store) :
  castObjectId postId = true ->
  forall post, lookup post_id (posts st) postId = Some post -> ~ In user (likes post) ->
    post_paths post = [] ->
    fst (Post_Router_post_like user postId st) = send 200 (ok_message "Post liked")
    /\ fst (Post_Router_delete_like user postId (snd (Post_Router_post_like user postId st)))
       = send 200 (ok_message "Post unliked")
    /\ snd (Post_Router_delete_like user postId (snd (Post_Router_post_like user postId st)))
       = set_posts (fun l => replace_doc post_id l (bump (bump post))) st
    /\ likes (bump (bump post)) = likes post
    /\ post_v (bump (bump post)) = (post_v post + 2)%Z.
Proof.
  intros Hcast post Hfound Hnot Hvalid.
  rewrite (like_succeeds user postId st post Hcast Hfound Hnot Hvalid). simpl.
  split; [reflexivity|].
  rewrite delete_like_eq, Hcast. simpl.
  rewrite (lookup_replace post_id (posts st) postId post) by (assumption || reflexivity).
  simpl. rewrite String.eqb_refl. simpl.
  change (post_paths (bump (set_likes post (user :: likes post)))) with (post_paths post).
  rewrite Hvalid. simpl.
  split; [reflexivity|]. split; [|split; [reflexivity|simpl; lia]].
  rewrite unliked_fresh by assumption.
  unfold set_posts. simpl. f_equal.
  rewrite replace_twice by reflexivity.
  destruct post; reflexivity.
Qed.

(** X14: neither a like nor an unlike can be repeated: after a like that
    succeeded the same user's next like is answered with 400, after an
    unlike that succeeded the same user's next unlike is answered with 400,
    and the refused request writes nothing. *)
Theorem like_unlike_not_repeatable (user postId : string) (st : Store) :
  (status (fst (Post_Router_post_like user postId st)) = 200%Z ->
   Post_Router_post_like user postId (snd (Post_Router_post_like user postId st))
   = (send 400 (msg "Post already liked"), snd (Post_Router_post_like user postId st)))
  /\ (status (fst (Post_Router_delete_like user postId st)) = 200%Z ->
      Post_Router_delete_like user postId (snd (Post_Router_delete_like user postId st))
      = (send 400 (msg "Post has not yet been liked"),
         snd (Post_Router_delete_like user postId st))).
Proof.
  split.
  - intros Hok. destruct (like_succeeded user postId st Hok)
      as [Hcast [post [Hfound [Hnot Hvalid]]]].
    rewrite (like_succeeds user postId st post Hcast Hfound Hnot Hvalid). simpl.
    rewrite post_like_eq, Hcast. simpl.
    rewrite (lookup_replace post_id (posts st) postId post) by (assumption || reflexivity).
    simpl. now rewrite String.eqb_refl.
  - intros Hok. destruct (unlike_succeeded user postId st Hok)
      as [Hcast [post [Hfound [Hin Hvalid]]]].
    apply existsb_eqb_In in Hin.
    rewrite (delete_like_eq user postId st), Hcast, Hfound, Hin, Hvalid. simpl.
    rewrite delete_like_eq, Hcast. simpl.
    rewrite (lookup_replace post_id (posts st) postId post) by (assumption || reflexivity).
    simpl.
    pose proof (not_In_unliked user (likes post)) as Hgone.
    apply existsb_eqb_not_In in Hgone. now rewrite Hgone.
Qed.

Lemma like_refused (user postId : string) (st : Store) :
  status (fst (Post_Router_post_like user postId st)) <> 200%Z ->
  snd (Post_Router_post_like user postId st) = st.
Proof.
  rewrite post_like_eq.
  destruct (castObjectId postId); [|reflexivity].
  destruct (lookup post_id (posts st) postId) as [post|]; [|reflexivity].
  destruct (existsb (String.eqb user) (likes post)); [reflexivity|].
  destruct (post_paths post); [|reflexivity].
  intros Hfailed. now contradiction Hfailed.
Qed.

Lemma unlike_refused (user postId : string) (st : Store) :
  status (fst (Post_Router_delete_like user postId st)) <> 200%Z ->
  snd (Post_Router_delete_like user postId st) = st.
Proof.
  rewrite delete_like_eq.
  destruct (castObjectId postId); [|reflexivity].
  destruct (lookup post_id (posts st) postId) as [post|]; [|reflexivity].
  destruct (existsb (String.eqb user) (likes post)); [|reflexivity].
  destruct (post_paths post); [|reflexivity].
  intros Hfailed. now contradiction Hfailed.
Qed.

Lemma save_of_likes_frame (postId : string) (st : Store) (post : Post) (l : list string) :
  lookup post_id (posts st) postId = Some post ->
  let st1 := set_posts (fun c => replace_doc post_id c (bump (set_likes post l))) st in
  users st1 = users st
  /\ commentDocs st1 = commentDocs st
  /\ map post_id (posts st1) = map post_id (posts st)
  /\ (forall other, other <> stored_id post_id (posts st) postId ->
      find_doc post_id (posts st1) other = find_doc post_id (posts st) other)
  /\ (forall post', lookup post_id (posts st1) postId = Some post' ->
      exists post0, lookup post_id (posts st) postId = Some post0
                    /\ (post' = post0 \/ post' = bump (set_likes post0 (likes post')))).
Proof.
  intros Hfound. simpl.
  split; [reflexivity|]. split; [reflexivity|]. split; [apply map_id_replace_doc|].
  split.
  - intros other Hother. apply find_replace_other. simpl.
    rewrite (lookup_id post_id _ _ _ Hfound). congruence.
  - intros post' Hpost'.
    rewrite (lookup_replace post_id (posts st) postId post) in Hpost'
      by (assumption || reflexivity).
    injection Hpost' as <-. exists post. split; [assumption|]. now right.
Qed.

Lemma no_save_frame (postId : string) (st : Store) :
  users st = users st
  /\ commentDocs st = commentDocs st
  /\ map post_id (posts st) = map post_id (posts st)
  /\ (forall other, other <> stored_id post_id (posts st) postId ->
      find_doc post_id (posts st) other = find_doc post_id (posts st) other)
  /\ (forall post', lookup post_id (posts st) postId = Some post' ->
      exists post0, lookup post_id (posts st) postId = Some post0
                    /\ (post' = post0 \/ post' = bump (set_likes post0 (likes post')))).
Proof.
  repeat split. intros post' Hfound. exists post'. split; [assumption|now left].
Qed.

(** X15: whatever they answer, a like and an unlike leave the users, the
    comments, the order and the ids of the posts and every post stored under
    another id as they were; the post with the ObjectId of the given id is
    either untouched or differs from what it was in its likes and in its
    version key, incremented by the save, and in nothing else. *)
Theorem like_unlike_frame (unlike : bool) (user postId : string) (st : Store) :
  let st' := snd (if unlike then Post_Router_delete_like user postId st
                  else Post_Router_post_like user postId st) in
  users st' = users st
  /\ commentDocs st' = commentDocs st
  /\ map post_id (posts st') = map post_id (posts st)
  /\ (forall other, other <> stored_id post_id (posts st) postId ->
      find_doc post_id (posts st') other = find_doc post_id (posts st) other)
  /\ (forall post', lookup post_id (posts st') postId = Some post' ->
      exists post, lookup post_id (posts st) postId = Some post
                   /\ (post' = post \/ post' = bump (set_likes post (likes post')))).
Proof.
  destruct unlike; cbv zeta.
  - destruct (Z.eq_dec (status (fst (Post_Router_delete_like user postId st))) 200)
      as [Hok|Hfailed].
    + destruct (unlike_succeeded user postId st Hok)
        as [Hcast [post [Hfound [Hin Hvalid]]]].
      rewrite (unlike_succeeds user postId st post Hcast Hfound Hin Hvalid).
      now apply save_of_likes_frame.
    + rewrite (unlike_refused user postId st Hfailed). apply no_save_frame.
  - destruct (Z.eq_dec (status (fst (Post_Router_post_like user postId st))) 200)
      as [Hok|Hfailed].
    + destruct (like_succeeded user postId st Hok)
        as [Hcast [post [Hfound [Hnot Hvalid]]]].
      rewrite (like_succeeds user postId st post Hcast Hfound Hnot Hvalid).
      now apply save_of_likes_frame.
    + rewrite (like_refused user postId st Hfailed). apply no_save_frame.
Qed.

(** *** A new post is served *)

(** X16: after a creation that was answered with 200, under an id that
    casts to an ObjectId, the get of that id is answered with 200 and the new
    post, with the caller as owner and without comments or likes, and the
    list without pagination has the post under every query that it
    matches. *)
Theorem create_then_get (user : string) (b : PostBody) (newId : string) (now : Z)
  (st : Store) :
  castObjectId newId = true ->
  status (fst (Post_Router_post user b newId now st)) = 200%Z ->
  fst (Post_Router_get_postId newId (snd (Post_Router_post user b newId now st)))
  = send 200 (populated_post (snd (Post_Router_post user b newId now st))
                (new_post user b newId now))
  /\ forall q, matches q (new_post user b newId now) = true ->
       In (selected_post (new_post user b newId now))
         (items_of (fst (Post_Router_get q (snd (Post_Router_post user b newId now st))))).
Proof.
  intros Hcast. rewrite post_eq.
  destruct (post_invalid_paths b); [|discriminate].
  destruct (find_doc post_id (posts st) newId) eqn:Hfresh; [discriminate|].
  intros _. simpl. split.
  - rewrite get_postId_eq, Hcast. simpl.
    rewrite (lookup_exact post_id _ newId (new_post user b newId now)); [reflexivity|].
    rewrite find_doc_app, Hfresh. simpl. now rewrite String.eqb_refl.
  - intros q Hmatch. unfold Post_Router_get. open_monad. simpl.
    unfold items_of. simpl. apply in_map.
    apply (Permutation_in _ (Permutation_sym (engine_sort_perm (sort_of q) _))).
    apply filter_In. split; [|assumption].
    apply in_or_app. right. now left.
Qed.

(** *** The list: its filter *)

Lemma matches_spec (q : ListQuery) (p : Post) :
  matches q p = true <->
  (truthy (query_stockSymbol q) = true ->
   stockSymbol p = value_or_empty (query_stockSymbol q))
  /\ (truthy (query_tags q) = true ->
      exists wanted, In wanted (split_on "," (value_or_empty (query_tags q)))
                     /\ In wanted (tags p)).
Proof.
  unfold matches. rewrite andb_true_iff.
  assert (Htags :
    existsb (fun wanted => existsb (String.eqb wanted) (tags p))
      (split_on "," (value_or_empty (query_tags q))) = true
    <-> exists wanted, In wanted (split_on "," (value_or_empty (query_tags q)))
                       /\ In wanted (tags p)).
  { rewrite existsb_exists. split; intros [w [H1 H2]]; exists w; split; auto;
      now apply existsb_eqb_In. }
  destruct (truthy (query_stockSymbol q)), (truthy (query_tags q));
    rewrite ?String.eqb_eq, ?Htags; split; intros H; repeat split; auto;
    try (destruct H as [H1 H2]; auto); try discriminate.
Qed.

(** X17: the list without pagination sends exactly the posts that pass the
    filter: a post passes when its stock symbol is the requested one, if one
    is requested, and when it carries one of the comma-separated tags, if
    tags are requested; a parameter that is absent or empty filters
    nothing. *)
Theorem list_filter_correct (q : ListQuery) (st : Store) :
  (forall j, In j (items_of (fst (Post_Router_get q st)))
             <-> exists p, In p (posts st) /\ matches q p = true /\ j = selected_post p)
  /\ (forall p, matches q p = true <->
        (truthy (query_stockSymbol q) = true ->
         stockSymbol p = value_or_empty (query_stockSymbol q))
        /\ (truthy (query_tags q) = true ->
            exists wanted, In wanted (split_on "," (value_or_empty (query_tags q)))
                           /\ In wanted (tags p)))
  /\ (truthy (query_stockSymbol q) = false -> truthy (query_tags q) = false ->
      List.length (items_of (fst (Post_Router_get q st))) = List.length (posts st)).
Proof.
  split; [|split].
  - intros j. unfold Post_Router_get. open_monad. unfold items_of. simpl.
    rewrite in_map_iff. split.
    + intros [p [Hj Hp]].
      apply (Permutation_in _ (engine_sort_perm (sort_of q) _)) in Hp.
      apply filter_In in Hp. exists p. now repeat split.
    + intros [p [Hp [Hmatch Hj]]]. exists p. split; [now symmetry|].
      apply (Permutation_in _ (Permutation_sym (engine_sort_perm (sort_of q) _))).
      now apply filter_In.
  - apply matches_spec.
  - intros Hsym Htags. unfold Post_Router_get. open_monad. unfold items_of. simpl.
    rewrite length_map, (Permutation_length (engine_sort_perm (sort_of q) _)).
    f_equal. apply forallb_filter_id. apply forallb_forall. intros p _.
    unfold matches. now rewrite Hsym, Htags.
Qed.

(** *** The list: its pages *)

Lemma get_paged_eq (q : ListQuery) (st : Store) (p l : Z) :
  pageNumber q = Num p -> limitNumber q = Num l -> (1 <= p)%Z -> (1 <= l)%Z ->
  Post_Router_get_paged q st =
    (send 200
       (JObj [("pagination",
               JObj [("currentPage", JNum p);
                     ("totalPages",
                      jsnum_json
                        (ceil_div (Z.of_nat (List.length (filter (matches q) (posts st)))) l));
                     ("totalPosts",
                      JNum (Z.of_nat (List.length (filter (matches q) (posts st)))))]);
              ("posts",
               JArr (map formatted_post
                       (firstn (Z.to_nat l)
                          (skipn (Z.to_nat ((p - 1) * l))
                             (engine_sort (sort_of q)
                                (filter (matches q) (posts st)))))))]), st).
Proof.
  intros Hp Hl Hp1 Hl1. unfold Post_Router_get_paged, skip. open_monad.
  rewrite Hp, Hl. cbn.
  rewrite engine_window_regular by nia. reflexivity.
Qed.

Lemma firstn_plus {A} (a b : nat) (xs : list A) :
  firstn (a + b) xs = firstn a xs ++ firstn b (skipn a xs).
Proof.
  revert xs. induction a as [|a IH]; intros xs; simpl; [reflexivity|].
  destruct xs as [|x rest]; simpl; [now rewrite firstn_nil|]. now rewrite IH.
Qed.

Lemma windows_concat {A} (l n : nat) (xs : list A) :
  List.concat (map (fun k => firstn l (skipn ((k - 1) * l) xs)) (seq 1 n)) = firstn (n * l) xs.
Proof.
  induction n as [|n IH]; [reflexivity|].
  rewrite seq_S, map_app, concat_app, IH. simpl.
  rewrite app_nil_r, Nat.sub_0_r.
  replace (l + n * l)%nat with (n * l + l)%nat by lia.
  now rewrite firstn_plus.
Qed.

(** X18: for a limit from 1 on, the pages 1 to n of the paginated list, put
    one after the other, are the matching posts in the engine's order, each
    one once, as soon as n times the limit reaches their number. *)
Theorem pages_partition (q : ListQuery) (st : Store) (l : Z) (n : nat)
  (page_of : nat -> string) :
  limitNumber q = Num l -> (1 <= l)%Z ->
  (forall k, (1 <= k <= n)%nat -> parseInt (page_of k) = Num (Z.of_nat k)) ->
  (List.length (filter (matches q) (posts st)) <= n * Z.to_nat l)%nat ->
  List.concat (map (fun k => items_of (fst (Post_Router_get_paged (with_page q (page_of k)) st)))
            (seq 1 n))
  = map formatted_post (engine_sort (sort_of q) (filter (matches q) (posts st))).
Proof.
  intros Hl Hl1 Hpages Hreach.
  set (sorted := engine_sort (sort_of q) (filter (matches q) (posts st))).
  assert (Heach : forall k, In k (seq 1 n) ->
    items_of (fst (Post_Router_get_paged (with_page q (page_of k)) st))
    = (fun k => firstn (Z.to_nat l) (skipn ((k - 1) * Z.to_nat l)
                                       (map formatted_post sorted))) k).
  { intros k Hk. apply in_seq in Hk.
    rewrite (get_paged_eq (with_page q (page_of k)) st (Z.of_nat k) l);
      [|unfold pageNumber; simpl; apply Hpages; lia|exact Hl|lia|lia].
    unfold items_of. simpl. fold sorted.
    rewrite <- firstn_map, <- skipn_map. do 2 f_equal. nia. }
  rewrite (map_ext_in _ _ _ Heach), windows_concat.
  apply firstn_all2. rewrite length_map. unfold sorted.
  rewrite (Permutation_length (engine_sort_perm (sort_of q) _)). lia.
Qed.

(** X19: for a page and a limit that are safe integers from 1 on, a page
    that starts at or after the number of matching posts is answered with
    200 and no items, the pagination data being those of every other page. *)
Theorem page_past_end (q : ListQuery) (st : Store) (p l : Z) :
  pageNumber q = Num p -> limitNumber q = Num l ->
  (1 <= p <= MAX_SAFE_INTEGER)%Z -> (1 <= l <= MAX_SAFE_INTEGER)%Z ->
  ((p - 1) * l <= MAX_SAFE_INTEGER)%Z ->
  (Z.of_nat (List.length (filter (matches q) (posts st))) <= (p - 1) * l)%Z ->
  status (fst (Post_Router_get_paged q st)) = 200%Z
  /\ items_of (fst (Post_Router_get_paged q st)) = []
  /\ json_field "pagination" (body (fst (Post_Router_get_paged q st)))
     = Some (JObj [("currentPage", JNum p);
                   ("totalPages",
                    jsnum_json
                      (ceil_div (Z.of_nat (List.length (filter (matches q) (posts st)))) l));
                   ("totalPosts",
                    JNum (Z.of_nat (List.length (filter (matches q) (posts st)))))]).
Proof.
  intros Hp Hl [Hp1 _] [Hl1 _] _ Hpast. rewrite (get_paged_eq q st p l) by assumption.
  split; [reflexivity|]. split; [|reflexivity].
  unfold items_of. simpl.
  rewrite skipn_all2; [now rewrite firstn_nil|].
  rewrite (Permutation_length (engine_sort_perm (sort_of q) _)). lia.
Qed.

(** *** A new comment is served *)

Lemma populated_comments_app (st : Store) (a b : list string) :
  populated_comments st (a ++ b) = populated_comments st a ++ populated_comments st b.
Proof.
  induction a as [|id rest IH]; simpl; [reflexivity|].
  destruct (find_doc comment_id (commentDocs st) id); simpl; now rewrite IH.
Qed.

(** X20: in the revision that keeps the comment list, after a comment that
    was answered with 200 on a post whose id casts, the get of the post is
    answered with 200 and its comments end with the new comment, with the
    caller's id and user name as its author and the id of the post, in its
    stored form, as its parent. *)
Theorem comment_then_get (user postId : string) (comment : option string)
  (newId : string) (now : Z) (st : Store) :
  castObjectId postId = true ->
  status (fst (Comment_Router_post_comments_part_002 user postId comment newId now st))
  = 200%Z ->
  status (fst (Post_Router_get_postId postId
                 (snd (Comment_Router_post_comments_part_002
                         user postId comment newId now st)))) = 200%Z
  /\ exists post earlier,
       lookup post_id (posts st) postId = Some post
       /\ json_field "comments"
            (body (fst (Post_Router_get_postId postId
                          (snd (Comment_Router_post_comments_part_002
                                  user postId comment newId now st)))))
          = Some (JArr (earlier ++
                        [JObj [("_id", JStr newId);
                               ("user", populated_user (users st) user);
                               ("post", JStr (post_id post));
                               ("content", JStr (value_or_empty comment));
                               ("createdAt", JNum now);
                               ("__v", JNum 0)]])).
Proof.
  intros Hcast. rewrite post_comments_part_002_eq, Hcast.
  destruct (lookup post_id (posts st) postId) as [post|] eqn:Hfound; [|discriminate].
  destruct (truthy comment); [|discriminate].
  destruct (find_doc comment_id (commentDocs st) newId) eqn:Hfresh; [discriminate|].
  destruct (post_paths post); [|discriminate].
  intros _. simpl. rewrite get_postId_eq, Hcast. simpl.
  rewrite (lookup_replace post_id (posts st) postId post) by (assumption || reflexivity).
  simpl. split; [reflexivity|]. exists post.
  rewrite populated_comments_app. eexists. split; [reflexivity|].
  do 2 f_equal. f_equal.
  simpl. rewrite find_doc_app, Hfresh. simpl. now rewrite String.eqb_refl.
Qed.

(** X21: the first revision of the comment route answers 404 exactly when
    no post has the ObjectId of a well-formed id and 500, without a write,
    when the comment is empty or missing; a 200 means that the comment
    document was appended, with the caller as author and the post as parent,
    while the posts, the comment list of the parent included, are as
    before. *)
Theorem first_comment_outcome (user postId : string) (comment : option string)
  (newId : string) (now : Z) (st : Store) :
  castObjectId postId = true ->
  (status (fst (Comment_Router_post_comments user postId comment newId now st)) = 404%Z
   <-> lookup post_id (posts st) postId = None)
  /\ (truthy comment = false -> lookup post_id (posts st) postId <> None ->
      Comment_Router_post_comments user postId comment newId now st
      = (server_error (ValidationError ["content"]), st))
  /\ (status (fst (Comment_Router_post_comments user postId comment newId now st)) = 200%Z ->
      exists post,
        lookup post_id (posts st) postId = Some post
        /\ commentDocs (snd (Comment_Router_post_comments user postId comment newId now st))
           = commentDocs st
             ++ [mkComment newId user (post_id post) (value_or_empty comment) now]
        /\ posts (snd (Comment_Router_post_comments user postId comment newId now st))
           = posts st)
  /\ (lookup post_id (posts st) postId <> None -> truthy comment = true ->
      find_doc comment_id (commentDocs st) newId = None ->
      status (fst (Comment_Router_post_comments user postId comment newId now st)) = 200%Z).
Proof.
  intros Hcast. unfold Comment_Router_post_comments. open_monad. rewrite Hcast. cbn.
  destruct (lookup post_id (posts st) postId) as [post|]; cbn.
  - unfold required. destruct (truthy comment); cbn.
    + destruct (find_doc comment_id (commentDocs st) newId); cbn;
        (split; [split; discriminate|]); (split; [discriminate|]);
        split; try discriminate; auto.
      intros _. exists post. now repeat split.
    + (split; [split; discriminate|]); (split; [reflexivity|]);
        split; discriminate.
  - split; [split; reflexivity|]. split; [intros _ Habsent; now contradiction Habsent|].
    split; [discriminate|]. intros Habsent. now contradiction Habsent.
Qed.

(** *** The token of the Authorization header *)

Lemma split_on_cons (sep : ascii) (s : string) :
  exists h t, split_on sep s = h :: t.
Proof.
  induction s as [|c rest [h [t IH]]]; simpl; [now exists EmptyString, []|].
  destruct (Ascii.eqb c sep); [now eexists; eexists|].
  rewrite IH. now eexists; eexists.
Qed.

Lemma split_on_no_space (s : string) :
  has_space s = false -> split_on " " s = [s].
Proof.
  unfold has_space. induction s as [|c rest IH]; simpl; [reflexivity|].
  destruct (Ascii.eqb c " "); simpl; [discriminate|].
  intros Hrest. now rewrite (IH Hrest).
Qed.

Lemma split_on_scheme (scheme rest : string) :
  has_space scheme = false ->
  split_on " " (String.append scheme (String " " rest)) = scheme :: split_on " " rest.
Proof.
  unfold has_space. induction scheme as [|c more IH]; simpl; [reflexivity|].
  destruct (Ascii.eqb c " "); simpl; [discriminate|].
  intros Hmore. now rewrite (IH Hmore).
Qed.

(** X22: the two revisions of the middleware decide alike on every header
    whose second space-separated field is a non-empty token. *)
Theorem authenticators_agree (header : string) :
  truthy (nth_error (split_on " " header) 1) = true ->
  authenticator (Some header) = authenticator_part_006 (Some header).
Proof.
  intros Htoken. unfold authenticator, authenticator_part_006. rewrite Htoken. simpl.
  destruct header as [|c rest]; [discriminate|]. reflexivity.
Qed.

(** X23: the middleware does not look at the scheme: for a header made of
    any word without a space, one space and a non-empty token without a
    space, both revisions pass the request on exactly when [jwt.verify]
    accepts the token, with the identity it returns, and answer 401
    otherwise. *)
Theorem scheme_is_not_checked (scheme token : string) :
  has_space scheme = false -> has_space token = false -> token <> "" ->
  authenticator_part_006 (Some (String.append scheme (String " " token)))
  = match jwt_verify (Some token) with
    | Some user => Next user
    | None => Rejected (send 401 (msg "Token is not valid"))
    end
  /\ authenticator (Some (String.append scheme (String " " token)))
     = authenticator_part_006 (Some (String.append scheme (String " " token))).
Proof.
  intros Hscheme Htoken Hne.
  assert (Hfield : nth_error (split_on " " (String.append scheme (String " " token))) 1
                   = Some token).
  { rewrite split_on_scheme by assumption. now rewrite split_on_no_space. }
  assert (Htruthy : truthy (Some token) = true) by now apply truthy_Some.
  assert (Hheader : truthy (Some (String.append scheme (String " " token))) = true).
  { apply truthy_Some. now destruct scheme. }
  split.
  - unfold authenticator_part_006. rewrite Hheader.
    simpl value_or_empty. now rewrite Hfield.
  - unfold authenticator, authenticator_part_006. rewrite Hheader.
    simpl value_or_empty. now rewrite Hfield, Htruthy.
Qed.

End MoreProperties.

(** ** The further properties on the concrete engine *)

Lemma failed_request_keeps_store_witness :
  status (fst (handle (Like bob_id post1_upper) demo_store)) = 400%Z
  /\ snd (handle (Like bob_id post1_upper) demo_store) = demo_store
  /\ status (fst (handle (AddComment true bob_id post1_id (Some "nice") comment1_id 4)
                    seeded_store)) = 500%Z
  /\ commentDocs (snd (handle (AddComment true bob_id post1_id (Some "nice") comment1_id 4)
                         seeded_store))
     = [mkComment comment1_id bob_id post1_id "nice" 4].
Proof.
  destruct (@failed_request_keeps_store demo_engine (Like bob_id post1_upper) demo_store)
    as [Hkept _].
  destruct (@failed_request_keeps_store demo_engine
              (AddComment true bob_id post1_id (Some "nice") comment1_id 4) seeded_store)
    as [_ Hpartial].
  destruct (Hpartial bob_id post1_id (Some "nice") comment1_id 4%Z _
              eq_refl eq_refl eq_refl eq_refl eq_refl ltac:(discriminate))
    as [Hstatus Hwritten].
  split; [reflexivity|]. split; [apply Hkept; [now left|simpl; lia]|].
  split; [exact Hstatus|now rewrite Hwritten].
Defined.

Lemma reads_keep_store_witness :
  reads_only (Login "a@x.com" "secret") = true
  /\ snd (handle (Login "a@x.com" "secret") demo_store) = demo_store.
Proof.
  split; [reflexivity|].
  exact (@reads_keep_store demo_engine (Login "a@x.com" "secret") demo_store eq_refl).
Defined.

Lemma collections_are_separate_witness :
  posts (snd (handle (Register true "carol" "c@x.com" "pw" demo_salt carol_id 5) demo_store))
  = posts demo_store
  /\ users (snd (handle (Like alice_id post1_id) demo_store)) = users demo_store.
Proof.
  destruct (@collections_are_separate demo_engine
              (Register true "carol" "c@x.com" "pw" demo_salt carol_id 5) demo_store)
    as [Huser _].
  destruct (Huser eq_refl) as [Hposts _].
  destruct (@collections_are_separate demo_engine (Like alice_id post1_id) demo_store)
    as [_ Hpost].
  split; [exact Hposts|exact (Hpost eq_refl)].
Defined.

Lemma register_outcome_witness :
  authRouter_post_register_part_004 "al" "a@x.com" "pw" demo_salt carol_id 5 demo_store
  = (send 400 (msg "User already exists, Please Login"), demo_store)
  /\ status (fst (authRouter_post_register_part_004 "carol" "c@x.com" "pw" demo_salt
                    carol_id 5 demo_store)) = 200%Z
  /\ status (fst (authRouter_post_register_part_004 "alice" "c@x.com" "pw" demo_salt
                    carol_id 5 demo_store)) <> 200%Z.
Proof.
  destruct (@register_outcome demo_engine "al" "a@x.com" "pw" demo_salt carol_id 5
              demo_store) as [Hknown _].
  split; [apply Hknown; simpl; now left|].
  assert (Hnew : ~ In "c@x.com" (map email (users demo_store))).
  { simpl. intros [H|[H|[]]]; discriminate H. }
  destruct (@register_outcome demo_engine "carol" "c@x.com" "pw" demo_salt carol_id 5
              demo_store) as [_ [Hcarol _]].
  destruct (Hcarol Hnew) as [[_ Hok] _].
  destruct (@register_outcome demo_engine "alice" "c@x.com" "pw" demo_salt carol_id 5
              demo_store) as [_ [Htaken _]].
  destruct (Htaken Hnew) as [[Honly _] _].
  split.
  - apply Hok. split; [discriminate|]. split; [discriminate|]. split; [discriminate|].
    split; simpl; intros [H|[H|[]]]; discriminate H.
  - intros Hstatus. destruct (Honly Hstatus) as [_ [_ [_ [_ Hfree]]]].
    apply Hfree. simpl. now left.
Defined.

Lemma login_outcome_witness :
  status (fst (authRouter_post_login "nobody@x.com" "secret" demo_store)) = 404%Z
  /\ status (fst (authRouter_post_login "a@x.com" "wrong" demo_store)) = 400%Z
  /\ fst (authRouter_post_login "a@x.com" "secret" demo_store)
     = send 200 (JObj [("token", JStr (jwt_sign alice_id));
                       ("user", JObj [("id", JStr alice_id); ("username", JStr "alice");
                                      ("email", JStr "a@x.com")])]).
Proof.
  destruct (@login_outcome demo_engine "nobody@x.com" "secret" demo_store)
    as [_ [[_ Hunknown] _]].
  destruct (@login_outcome demo_engine "a@x.com" "wrong" demo_store) as [_ [_ Hwrong]].
  destruct (Hwrong _ eq_refl) as [[_ Hrejected] _].
  destruct (@login_outcome demo_engine "a@x.com" "secret" demo_store) as [_ [_ Hright]].
  destruct (Hright _ eq_refl) as [_ Haccepted].
  split; [|split].
  - apply Hunknown. simpl. intros [H|[H|[]]]; discriminate H.
  - exact (Hrejected eq_refl).
  - exact (Haccepted eq_refl).
Defined.

Lemma register_then_login_witness :
  bcrypt_compare "pw" (bcrypt_hash "pw" demo_salt) = true
  /\ fst (authRouter_post_login "c@x.com" "pw"
            (snd (handle (Register false "carol" "c@x.com" "pw" demo_salt carol_id 5)
                    demo_store)))
     = send 200 (JObj [("token", JStr (jwt_sign carol_id));
                       ("user", JObj [("id", JStr carol_id); ("username", JStr "carol");
                                      ("email", JStr "c@x.com")])]).
Proof.
  split; [reflexivity|].
  apply (@register_then_login demo_engine false "carol" "c@x.com" "pw" demo_salt carol_id 5
           demo_store eq_refl).
  simpl. lia.
Defined.

Lemma put_profile_outcome_witness :
  userRouter_put_profile_part_001 carol_id "carol" "" "" demo_store
  = (send 404 (msg "User not found"), demo_store)
  /\ userRouter_put_profile carol_id "carol" "" "" demo_store
     = (send 200 (ok_message "Profile updated"), demo_store)
  /\ userRouter_put_profile_part_001 bob_id "alice" "" "" demo_store
     = (send 500 (JObj [("message", JStr "Error updating profile")]), demo_store)
  /\ option_map username
       (find_doc user_id
          (users (snd (userRouter_put_profile_part_001 bob_id "robert" "hi" "" demo_store)))
          bob_id) = Some "robert".
Proof.
  destruct (@put_profile_outcome carol_id "carol" "" "" demo_store)
    as [Hunknown _].
  destruct (Hunknown eq_refl) as [Hlater Hfirst].
  destruct (@put_profile_outcome bob_id "alice" "" "" demo_store)
    as [_ Hbob].
  destruct (Hbob _ eq_refl) as [Htaken _].
  destruct (@put_profile_outcome bob_id "robert" "hi" "" demo_store)
    as [_ Hrobert].
  destruct (Hrobert _ eq_refl) as [_ Hfree].
  split; [exact Hlater|]. split; [exact Hfirst|]. split.
  - apply Htaken. eexists. split; [simpl; left; reflexivity|]. split; [discriminate|reflexivity].
  - destruct Hfree as [_ [Hstored _]].
    + simpl. intros o [<-|[<-|[]]] Hother; simpl; [discriminate|now contradiction Hother].
    + now rewrite Hstored.
Defined.



Lemma like_then_unlike_witness :
  castObjectId post1_upper = true
  /\ fst (Post_Router_post_like alice_id post1_upper demo_store)
     = send 200 (ok_message "Post liked")
  /\ option_map (fun p => (likes p, post_v p))
       (lookup post_id
          (posts (snd (Post_Router_delete_like alice_id post1_upper
                         (snd (Post_Router_post_like alice_id post1_upper demo_store)))))
          post1_upper)
     = Some ([bob_id], 4%Z).
Proof.
  assert (Hnot : ~ In alice_id [bob_id]).
  { intros [H|[]]. discriminate H. }
  destruct (@like_then_unlike demo_engine alice_id post1_upper demo_store eq_refl
              _ eq_refl Hnot eq_refl) as [Hliked [_ [Hback _]]].
  split; [reflexivity|]. split; [exact Hliked|]. now rewrite Hback.
Defined.

Lemma like_unlike_not_repeatable_witness :
  status (fst (Post_Router_post_like alice_id post1_upper demo_store)) = 200%Z
  /\ status (fst (Post_Router_post_like alice_id post1_upper
                    (snd (Post_Router_post_like alice_id post1_upper demo_store))))
     = 400%Z
  /\ status (fst (Post_Router_delete_like bob_id post1_id
                    (snd (Post_Router_delete_like bob_id post1_id demo_store)))) = 400%Z.
Proof.
  destruct (@like_unlike_not_repeatable demo_engine alice_id post1_upper demo_store)
    as [Hlike _].
  destruct (@like_unlike_not_repeatable demo_engine bob_id post1_id demo_store)
    as [_ Hunlike].
  split; [reflexivity|]. split.
  - now rewrite (Hlike eq_refl).
  - now rewrite (Hunlike eq_refl).
Defined.

Lemma create_then_get_witness :
  castObjectId post2_id = true
  /\ status (fst (Post_Router_post bob_id aapl post2_id 6 demo_store)) = 200%Z
  /\ status (fst (Post_Router_get_postId post2_id
                    (snd (Post_Router_post bob_id aapl post2_id 6 demo_store)))) = 200%Z
  /\ In (selected_post (new_post bob_id aapl post2_id 6))
       (items_of (fst (Post_Router_get page_two
                         (snd (Post_Router_post bob_id aapl post2_id 6 demo_store))))).
Proof.
  destruct (@create_then_get demo_engine bob_id aapl post2_id 6 demo_store eq_refl eq_refl)
    as [Hget Hlisted].
  split; [reflexivity|]. split; [reflexivity|]. split.
  - now rewrite Hget.
  - exact (Hlisted page_two eq_refl).
Defined.

Lemma pages_partition_witness :
  limitNumber first_ten = Num 10
  /\ List.length
       (List.concat
          (map (fun k => items_of (fst (Post_Router_get_paged
                                          (with_page first_ten (two_pages k))
                                          fifteen_posts)))
             (seq 1 2))) = 15%nat.
Proof.
  split; [reflexivity|].
  rewrite (@pages_partition demo_engine first_ten fifteen_posts 10 2 two_pages eq_refl).
  - reflexivity.
  - lia.
  - intros k Hk. destruct k as [|[|[|k]]]; [lia|reflexivity|reflexivity|lia].
  - simpl. lia.
Defined.

Lemma page_past_end_witness :
  pageNumber (with_page first_ten "3") = Num 3
  /\ status (fst (Post_Router_get_paged (with_page first_ten "3") fifteen_posts)) = 200%Z
  /\ items_of (fst (Post_Router_get_paged (with_page first_ten "3") fifteen_posts)) = [].
Proof.
  destruct (@page_past_end demo_engine (with_page first_ten "3") fifteen_posts 3 10
              eq_refl eq_refl) as [Hok [Hnone _]];
    [unfold MAX_SAFE_INTEGER; lia|unfold MAX_SAFE_INTEGER; lia
    |unfold MAX_SAFE_INTEGER; lia|simpl; lia|].
  split; [reflexivity|]. split; [exact Hok|exact Hnone].
Defined.

Lemma comment_then_get_witness :
  castObjectId post1_upper = true
  /\ status (fst (Comment_Router_post_comments_part_002 alice_id post1_upper
                    (Some "thanks") comment2_id 5 demo_store)) = 200%Z
  /\ status (fst (Post_Router_get_postId post1_upper
                    (snd (Comment_Router_post_comments_part_002 alice_id post1_upper
                            (Some "thanks") comment2_id 5 demo_store)))) = 200%Z.
Proof.
  destruct (@comment_then_get demo_engine alice_id post1_upper (Some "thanks") comment2_id 5
              demo_store eq_refl eq_refl) as [Hok _].
  split; [reflexivity|]. split; [reflexivity|exact Hok].
Defined.

Lemma authenticators_agree_witness :
  truthy (nth_error (split_on " " "Bearer tk:abc") 1) = true
  /\ authenticator (Some "Bearer tk:abc") = Next "abc"
  /\ authenticator_part_006 (Some "Bearer tk:abc") = Next "abc".
Proof.
  split; [reflexivity|]. split; [reflexivity|].
  now rewrite <- (@authenticators_agree demo_engine "Bearer tk:abc" eq_refl).
Defined.

Lemma scheme_is_not_checked_witness :
  has_space "Basic" = false /\ has_space "tk:abc" = false
  /\ authenticator_part_006 (Some "Basic tk:abc") = Next "abc"
  /\ authenticator_part_006 (Some "Basic forged")
     = Rejected (send 401 (msg "Token is not valid")).
Proof.
  destruct (@scheme_is_not_checked demo_engine "Basic" "tk:abc" eq_refl eq_refl)
    as [Hpass _]; [discriminate|].
  destruct (@scheme_is_not_checked demo_engine "Basic" "forged" eq_refl eq_refl)
    as [Hfail _]; [discriminate|].
  split; [reflexivity|]. split; [reflexivity|]. split; [exact Hpass|exact Hfail].
Defined.

Lemma authenticator_part_006_gate_witness :
  protected (authenticator_part_006 None) (fun user => Post_Router_post_like user post1_id) demo_store
  = Sent (send 401 (msg "No token, authorization denied")) demo_store
  /\ authenticator_part_006 (Some "Bearer tk:abc") = Next "abc".
Proof.
  destruct (@authenticator_part_006_gate demo_engine None
              (fun user => Post_Router_post_like user post1_id) demo_store) as [Hmissing _].
  destruct (@authenticator_part_006_gate demo_engine (Some "Bearer tk:abc")
              (fun user => Post_Router_post_like user post1_id) demo_store) as [_ [_ [_ Hvalid]]].
  split; [exact (Hmissing eq_refl)|exact (Hvalid "abc" eq_refl eq_refl)].
Defined.

Lemma no_password_elsewhere_witness :
  has_key "password"
    (body (fst (handle (Register true "carol" "c@x.com" "pw" demo_salt carol_id 5)
                  demo_store))) = false
  /\ has_key "password" (body (fst (handle (GetPost post1_id) demo_store))) = false.
Proof.
  split.
  - apply (@no_password_elsewhere demo_engine). intros u m p s i t. discriminate.
  - apply (@no_password_elsewhere demo_engine). intros u m p s i t. discriminate.
Defined.

Lemma first_comment_outcome_witness :
  castObjectId post1_upper = true
  /\ status (fst (Comment_Router_post_comments alice_id post1_upper (Some "thanks")
                    comment2_id 5 demo_store)) = 200%Z
  /\ posts (snd (Comment_Router_post_comments alice_id post1_upper (Some "thanks")
                   comment2_id 5 demo_store)) = posts demo_store
  /\ commentDocs (snd (Comment_Router_post_comments alice_id post1_upper (Some "thanks")
                         comment2_id 5 demo_store))
     = commentDocs demo_store ++ [mkComment comment2_id alice_id post1_id "thanks" 5]
  /\ status (fst (Comment_Router_post_comments alice_id post1_upper None
                    comment2_id 5 demo_store)) = 500%Z.
Proof.
  destruct (@first_comment_outcome demo_engine alice_id post1_upper (Some "thanks")
              comment2_id 5 demo_store eq_refl) as [_ [_ [Hdone Hsuccess]]].
  assert (Hok : status (fst (Comment_Router_post_comments alice_id post1_upper
                               (Some "thanks") comment2_id 5 demo_store)) = 200%Z).
  { apply Hsuccess; [discriminate|reflexivity|reflexivity]. }
  destruct (Hdone Hok) as [post [Hfound [Hdocs Hposts]]].
  injection Hfound as <-.
  destruct (@first_comment_outcome demo_engine alice_id post1_upper None
              comment2_id 5 demo_store eq_refl) as [_ [Hempty _]].
  split; [reflexivity|]. split; [exact Hok|]. split; [exact Hposts|].
  split; [exact Hdocs|].
  rewrite (Hempty eq_refl); [reflexivity|discriminate].
Defined.
